(** * simple_parsing.helpers.fields: choice and subgroup resolution

    A shallow embedding of [field], [choice] and [subgroups] of
    [simple_parsing/helpers/fields.py], with the Python objects they inspect
    (sentinels, classes, enum members, dicts, key views, closures), the
    exceptions they raise and the warning they emit. *)

From Stdlib Require Import String List ZArith Bool Lia.
Import ListNotations.
Open Scope string_scope.
Open Scope list_scope.
Set Warnings "-register-all".

(** ** Python objects *)

(** What [inspect.isclass], [issubclass(_, Enum)] and
    [dataclasses.is_dataclass] can tell about a class.  An [EnumClass] lists
    the names of its members in definition order, which is the order in which
    iterating over the class yields them; it is an enum without a mixed-in
    data type (the members of [class Mode(str, Enum)] are strings as well,
    and equal and hash like them). *)
Inductive class_kind : Type :=
| PlainClass
| DataClass
| EnumClass (members : list string).

(** The objects that reach the functions of this file.  A dict is the list of
    its items in insertion order ([OrderedDict] is a dict); [VDictKeys] is the
    view returned by [dict.keys()]; [VEncodingFn] and [VDecodingFn] are the
    closures [_encoding_fn] and [_decoding_fn] that [choice] creates, with the
    [choice_dict] they close over.  Floats are not among these objects: every
    object here equals itself ([py_eq_refl] below), which a NaN does not. *)
Inductive value : Type :=
| VNone
| VMissing
| VBool (b : bool)
| VInt (n : Z)
| VStr (s : string)
| VTuple (items : list value)
| VList (items : list value)
| VDict (items : list (value * value))
| VDictKeys (items : list (value * value))
| VClass (name : string) (kind : class_kind)
| VEnumMember (cls : string) (name : string)
| VFunction (name : string)
| VEncodingFn (choice_dict : list (value * value))
| VDecodingFn (choice_dict : list (value * value)).

Definition dict : Type := list (value * value).

(** Keyword arguments ([**kwargs]), in call order. *)
Definition kwargs : Type := list (string * value).

Definition class_kind_eqb (a b : class_kind) : bool :=
  match a, b with
  | PlainClass, PlainClass => true
  | DataClass, DataClass => true
  | EnumClass m1, EnumClass m2 =>
      if list_eq_dec string_dec m1 m2 then true else false
  | _, _ => false
  end.

(** [a == b].  Numbers compare by value across [bool] and [int]; sequences
    compare element by element; dicts compare as unordered sets of items (the
    order that two [OrderedDict]s also compare is left out) and key views as
    sets of keys; classes, enum members and functions compare by identity, an
    object being identified here with its description. *)
Fixpoint py_eq (a b : value) {struct a} : bool :=
  let items_in :=
    fix items_in (d1 d2 : dict) {struct d1} : bool :=
      match d1 with
      | [] => true
      | (k, v) :: r =>
          existsb (fun kv => py_eq k (fst kv) && py_eq v (snd kv)) d2
          && items_in r d2
      end in
  let keys_in :=
    fix keys_in (d1 d2 : dict) {struct d1} : bool :=
      match d1 with
      | [] => true
      | (k, _) :: r => existsb (fun kv => py_eq k (fst kv)) d2 && keys_in r d2
      end in
  let seq_eq :=
    fix seq_eq (l1 l2 : list value) {struct l1} : bool :=
      match l1, l2 with
      | [], [] => true
      | x :: r, y :: s => py_eq x y && seq_eq r s
      | _, _ => false
      end in
  match a, b with
  | VNone, VNone => true
  | VMissing, VMissing => true
  | VBool x, VBool y => Bool.eqb x y
  | VInt x, VInt y => Z.eqb x y
  | VBool x, VInt y => Z.eqb (Z.b2z x) y
  | VInt x, VBool y => Z.eqb x (Z.b2z y)
  | VStr x, VStr y => String.eqb x y
  | VTuple l1, VTuple l2 => seq_eq l1 l2
  | VList l1, VList l2 => seq_eq l1 l2
  | VDict d1, VDict d2 => Nat.eqb (length d1) (length d2) && items_in d1 d2
  | VDictKeys d1, VDictKeys d2 =>
      Nat.eqb (length d1) (length d2) && keys_in d1 d2
  | VClass n1 k1, VClass n2 k2 => String.eqb n1 n2 && class_kind_eqb k1 k2
  | VEnumMember c1 n1, VEnumMember c2 n2 => String.eqb c1 c2 && String.eqb n1 n2
  | VFunction n1, VFunction n2 => String.eqb n1 n2
  | VEncodingFn d1, VEncodingFn d2 =>
      Nat.eqb (length d1) (length d2) && items_in d1 d2
  | VDecodingFn d1, VDecodingFn d2 =>
      Nat.eqb (length d1) (length d2) && items_in d1 d2
  | _, _ => false
  end.

(** [a is b], for the objects whose identity their description fixes: the
    sentinels, booleans, classes, enum members and functions.  These are the
    only objects on which the code below relies on identity. *)
Definition py_is (a b : value) : bool :=
  match a, b with
  | VNone, VNone => true
  | VMissing, VMissing => true
  | VBool x, VBool y => Bool.eqb x y
  | VClass n1 k1, VClass n2 k2 => String.eqb n1 n2 && class_kind_eqb k1 k2
  | VEnumMember c1 n1, VEnumMember c2 n2 => String.eqb c1 c2 && String.eqb n1 n2
  | VFunction n1, VFunction n2 => String.eqb n1 n2
  | _, _ => false
  end.

(** [x is MISSING]. *)
Definition is_MISSING (x : value) : bool :=
  match x with VMissing => true | _ => false end.

(** [x is None]. *)
Definition is_None (x : value) : bool :=
  match x with VNone => true | _ => false end.

(** Whether [hash(x)] succeeds: lists, dicts and key views are unhashable, a
    tuple is hashable when its items are. *)
Fixpoint hashable (x : value) : bool :=
  match x with
  | VList _ | VDict _ | VDictKeys _ => false
  | VTuple l =>
      (fix all (l : list value) : bool :=
         match l with [] => true | y :: r => hashable y && all r end) l
  | _ => true
  end.

(** [bool(x)]. *)
Definition truthy (x : value) : bool :=
  match x with
  | VNone => false
  | VBool b => b
  | VInt n => negb (Z.eqb n 0)
  | VStr s => negb (String.eqb s "")
  | VTuple l | VList l => negb (Nat.eqb (length l) 0)
  | VDict d | VDictKeys d => negb (Nat.eqb (length d) 0)
  | _ => true
  end.

(** [inspect.isclass(x) and issubclass(x, Enum)]. *)
Definition is_enum_class (x : value) : bool :=
  match x with VClass _ (EnumClass _) => true | _ => false end.

(** [inspect.isclass(x) and dataclasses.is_dataclass(x)]. *)
Definition is_dataclass_type (x : value) : bool :=
  match x with VClass _ DataClass => true | _ => false end.

(** [isinstance(x, cls)] for the enum class named [cls]. *)
Definition isinstance_enum (x : value) (cls : string) : bool :=
  match x with VEnumMember c _ => String.eqb c cls | _ => false end.

(** The classes [list], [dict] and [set] of Python. *)
Definition list_type : value := VClass "list" PlainClass.
Definition dict_type : value := VClass "dict" PlainClass.
Definition set_type : value := VClass "set" PlainClass.

(** ** Exceptions, warnings and the monad of a call *)

Inductive exn_class : Type :=
| AssertionError | ValueError | TypeError | AttributeError
| RuntimeError | KeyError | IndexError.

Record exn : Type := Exn { exn_type : exn_class; exn_message : string }.

(** The [UserWarning] of [choice], with the two objects its message formats:
    the default that was passed and the enum member that replaces it. *)
Inductive warning : Type :=
| UserWarning (default member : value).

Inductive outcome (A : Type) : Type :=
| Ok (a : A)
| Raised (e : exn).
Arguments Ok {A} a.
Arguments Raised {A} e.

(** A call either returns or raises, and emits warnings on the way. *)
Definition M (A : Type) : Type := outcome A * list warning.

Definition ret {A} (a : A) : M A := (Ok a, []).
Definition raise {A} (c : exn_class) (msg : string) : M A :=
  (Raised (Exn c msg), []).
Definition warn (w : warning) : M unit := (Ok tt, [w]).
Definition bind {A B} (m : M A) (f : A -> M B) : M B :=
  match m with
  | (Ok a, ws) => let (r, ws') := f a in (r, ws ++ ws')
  | (Raised e, ws) => (Raised e, ws)
  end.

Declare Scope py_scope.
Delimit Scope py_scope with py.
Notation "x <- m ;; k" := (bind m (fun x => k))
  (at level 61, m at next level, right associativity) : py_scope.
Notation "m ;; k" := (bind m (fun _ => k))
  (at level 61, right associativity) : py_scope.
Notation "' pat <- m ;; k" := (bind m (fun x => match x with pat => k end))
  (at level 61, pat pattern, m at next level, right associativity) : py_scope.
Open Scope py_scope.

(** [assert cond, msg]. *)
Definition assert_ (cond : bool) (msg : string) : M unit :=
  if cond then ret tt else raise AssertionError msg.

(** ** Dicts and keyword arguments *)

(** The value stored under a key equal to [k] (keys of a dict are pairwise
    unequal, so there is at most one). *)
Fixpoint dict_find (k : value) (d : dict) : option value :=
  match d with
  | [] => None
  | (k', v) :: r => if py_eq k' k then Some v else dict_find k r
  end.

(** [k in d], [k in d.keys()]: the lookup hashes [k] first. *)
Definition dict_contains (k : value) (d : dict) : M bool :=
  if hashable k then
    ret (match dict_find k d with Some _ => true | None => false end)
  else raise TypeError "unhashable type".

(** [d[k]]. *)
Definition dict_getitem (k : value) (d : dict) : M value :=
  if hashable k then
    match dict_find k d with
    | Some v => ret v
    | None => raise KeyError "key not found"
    end
  else raise TypeError "unhashable type".

(** [d.get(k, default)]. *)
Definition dict_get (k default : value) (d : dict) : M value :=
  if hashable k then
    ret (match dict_find k d with Some v => v | None => default end)
  else raise TypeError "unhashable type".

(** The items after [d[k] = v]: an existing key keeps its place (and the key
    object it was first inserted with), a new key goes last. *)
Fixpoint dict_set (k v : value) (d : dict) : dict :=
  match d with
  | [] => [(k, v)]
  | (k', v') :: r =>
      if py_eq k' k then (k', v) :: r else (k', v') :: dict_set k v r
  end.

(** [OrderedDict(pairs)], [dict(pairs)]: the pairs inserted one by one. *)
Definition dict_of_pairs (pairs : list (value * value)) : dict :=
  fold_left (fun d kv => dict_set (fst kv) (snd kv) d) pairs [].

(** [list(d.keys())], [list(d.values())]. *)
Definition dict_keys (d : dict) : list value := map fst d.
Definition dict_values (d : dict) : list value := map snd d.

(** [x in d.values()], [x in some_list]: a scan that accepts an item which is
    [x] or equals [x]; nothing is hashed. *)
Definition seq_contains (x : value) (l : list value) : bool :=
  existsb (fun v => py_is v x || py_eq v x) l.

(** [x in {e1, e2, ...}] for a set display of hashable items. *)
Definition set_contains (x : value) (elems : list value) : M bool :=
  if hashable x then ret (existsb (fun e => py_eq e x) elems)
  else raise TypeError "unhashable type".

(** [obj[key] = v] for a string key: only a dict among the objects modelled
    supports item assignment by such a key. *)
Definition setitem (obj : value) (key : string) (v : value) : M value :=
  match obj with
  | VDict d => ret (VDict (dict_set (VStr key) v d))
  | _ => raise TypeError "object does not support item assignment"
  end.

(** [obj.update(dict(key=v))].  On the class [dict] itself, [update] is the
    function of the class: it takes the dict it is given as the one to
    update, and the class is left as it is; on the class [set], the function
    refuses a dict.  No other object among those modelled has an [update]
    attribute. *)
Definition update1 (obj : value) (key : string) (v : value) : M value :=
  match obj with
  | VDict d => ret (VDict (dict_set (VStr key) v d))
  | _ =>
      if py_is obj dict_type then ret obj
      else if py_is obj set_type then
        raise TypeError
          "descriptor 'update' for 'set' objects doesn't apply to a 'dict' object"
      else raise AttributeError "object has no attribute 'update'"
  end.

Fixpoint kw_get (name : string) (kw : kwargs) : option value :=
  match kw with
  | [] => None
  | (n, v) :: r => if String.eqb n name then Some v else kw_get name r
  end.

Definition kw_mem (name : string) (kw : kwargs) : bool :=
  match kw_get name kw with Some _ => true | None => false end.

(** [kwargs[name] = v]. *)
Fixpoint kw_set (name : string) (v : value) (kw : kwargs) : kwargs :=
  match kw with
  | [] => [(name, v)]
  | (n, v') :: r =>
      if String.eqb n name then (n, v) :: r else (n, v') :: kw_set name v r
  end.

(** [kwargs.setdefault(name, v)]: the value now under [name], and the
    keyword arguments after the call. *)
Definition kw_setdefault (name : string) (v : value) (kw : kwargs)
  : value * kwargs :=
  match kw_get name kw with
  | Some v' => (v', kw)
  | None => (v, kw ++ [(name, v)])
  end.

(** The argument bound to a parameter: the keyword given, else the default
    of the parameter. *)
Definition kw_arg (name : string) (dflt : value) (kw : kwargs) : value :=
  match kw_get name kw with Some v => v | None => dflt end.

(** A dict whose keys are the given names. *)
Definition dict_of_kwargs (kw : kwargs) : dict :=
  map (fun nv => (VStr (fst nv), snd nv)) kw.

(** ** The field object

    [dataclasses.field] belongs to Python's library: it refuses a default
    given together with a default factory and otherwise records its
    arguments in a [Field]. *)
Record Field : Type := mkField {
  fld_default : value;
  fld_default_factory : value;
  fld_init : value;
  fld_repr : value;
  fld_hash : value;
  fld_compare : value;
  fld_metadata : value
}.

Definition dataclasses_field
  (default default_factory init repr hash compare metadata : value) : M Field :=
  if negb (is_MISSING default) && negb (is_MISSING default_factory) then
    raise ValueError "cannot specify both default and default_factory"
  else ret (mkField default default_factory init repr hash compare metadata).

(** ** [field] (fields.py, lines 25-154) *)

Definition field
  (default alias cmd positional to_dict encoding_fn decoding_fn
   default_factory init repr hash compare metadata : value)
  (custom_argparse_args : kwargs) : M Field :=
  let _metadata := if negb (is_None metadata) then metadata else VDict [] in
  _metadata <-
    (if truthy alias then
       setitem _metadata "alias"
         (match alias with VList _ => alias | _ => VList [alias] end)
     else ret _metadata) ;;
  _metadata <- update1 _metadata "to_dict" to_dict ;;
  _metadata <-
    (if negb (is_None encoding_fn)
     then update1 _metadata "encoding_fn" encoding_fn
     else ret _metadata) ;;
  _metadata <-
    (if negb (is_None decoding_fn)
     then update1 _metadata "decoding_fn" decoding_fn
     else ret _metadata) ;;
  _metadata <- setitem _metadata "cmd" cmd ;;
  _metadata <- setitem _metadata "positional" positional ;;
  ' (_metadata, default) <-
    (match custom_argparse_args with
     | [] => ret (_metadata, default)
     | _ :: _ =>
         _metadata <- update1 _metadata "custom_args"
                        (VDict (dict_of_kwargs custom_argparse_args)) ;;
         let action :=
           match kw_get "action" custom_argparse_args with
           | Some a => a
           | None => VNone
           end in
         if py_eq action (VStr "store_false") then
           allowed <- set_contains default [VMissing; VBool true] ;;
           if negb allowed then
             raise RuntimeError
               "default should either not be passed or set to True when using the store_false action."
           else ret (_metadata, VBool true)
         else if py_eq action (VStr "store_true") then
           allowed <- set_contains default [VMissing; VBool false] ;;
           if negb allowed then
             raise RuntimeError
               "default should either not be passed or set to False when using the store_true action."
           else ret (_metadata, VBool false)
         else ret (_metadata, default)
     end) ;;
  if negb (is_MISSING default) then
    dataclasses_field default VMissing init repr hash compare _metadata
  else if negb (is_MISSING default_factory) then
    dataclasses_field VMissing default_factory init repr hash compare _metadata
  else
    dataclasses_field VMissing VMissing init repr hash compare _metadata.

(** The parameters of [field] that a keyword argument can name; every other
    keyword lands in [custom_argparse_args]. *)
Definition field_params : list string :=
  ["default"; "alias"; "cmd"; "positional"; "to_dict"; "encoding_fn";
   "decoding_fn"; "default_factory"; "init"; "repr"; "hash"; "compare";
   "metadata"].

Definition is_field_param (name : string) : bool :=
  existsb (String.eqb name) field_params.

(** The call [field(default=default, choices=choices, **kwargs)]: a keyword
    given twice is a [TypeError]; a parameter not given takes its default. *)
Definition call_field (default choices : value) (kwargs : kwargs) : M Field :=
  if kw_mem "default" kwargs || kw_mem "choices" kwargs then
    raise TypeError "field() got multiple values for keyword argument"
  else
    field default
      (kw_arg "alias" VNone kwargs) (kw_arg "cmd" (VBool true) kwargs)
      (kw_arg "positional" (VBool false) kwargs)
      (kw_arg "to_dict" (VBool true) kwargs)
      (kw_arg "encoding_fn" VNone kwargs) (kw_arg "decoding_fn" VNone kwargs)
      (kw_arg "default_factory" VMissing kwargs)
      (kw_arg "init" (VBool true) kwargs) (kw_arg "repr" (VBool true) kwargs)
      (kw_arg "hash" VNone kwargs) (kw_arg "compare" (VBool true) kwargs)
      (kw_arg "metadata" VNone kwargs)
      (("choices", choices)
         :: filter (fun nv => negb (is_field_param (fst nv))) kwargs).

(** ** [choice] (fields.py, lines 173-248) *)

(** The closure [_encoding_fn] of [choice], applied to [value]. *)
Definition _encoding_fn (choice_dict : dict) : value -> M value := fun value =>
  is_key <- dict_contains value choice_dict ;;
  if is_key then ret value
  else if seq_contains value (dict_values choice_dict) then
    match map fst (filter (fun kv => py_eq (snd kv) value) choice_dict) with
    | k :: _ => ret k
    | [] => raise IndexError "list index out of range"
    end
  else ret value.

(** The closure [_decoding_fn] of [choice], applied to [value]. *)
Definition _decoding_fn (choice_dict : dict) : value -> M value := fun value =>
  dict_get value value choice_dict.

(** Calling one of the two closures; the body of a caller's own function is
    not known here. *)
Definition call_closure (f x : value) : option (M value) :=
  match f with
  | VEncodingFn d => Some (_encoding_fn d x)
  | VDecodingFn d => Some (_decoding_fn d x)
  | _ => None
  end.

Definition choice (choices : list value) (default : value) (kwargs : kwargs)
  : M Field :=
  assert_ (0 <? length choices)%nat
    "Choice requires at least one positional argument!" ;;
  if (length choices =? 1)%nat then
    let choices := nth 0 choices VNone in
    ' (choices, default) <-
      (match choices with
       | VClass choice_enum (EnumClass members) =>
           let choices :=
             dict_of_pairs
               (map (fun e => (VStr e, VEnumMember choice_enum e)) members) in
           if negb (is_MISSING default)
              && negb (isinstance_enum default choice_enum) then
             is_name <- dict_contains default choices ;;
             if is_name then
               member <- dict_getitem default choices ;;
               warn (UserWarning default member) ;;
               default <- dict_getitem default choices ;;
               ret (VDict choices, default)
             else
               raise ValueError
                 "'default' arg should be of type {choice_enum}, but got {default}"
           else ret (VDict choices, default)
       | _ => ret (choices, default)
       end) ;;
    match choices with
    | VDict choice_dict =>
        let (metadata, kwargs) := kw_setdefault "metadata" (VDict []) kwargs in
        metadata <- setitem metadata "choice_dict" (VDict choice_dict) ;;
        let kwargs := kw_set "metadata" metadata kwargs in
        let choices := VList (dict_keys choice_dict) in
        let kwargs :=
          snd (kw_setdefault "encoding_fn" (VEncodingFn choice_dict) kwargs) in
        let kwargs :=
          snd (kw_setdefault "decoding_fn" (VDecodingFn choice_dict) kwargs) in
        call_field default choices kwargs
    | _ => call_field default choices kwargs
    end
  else call_field default (VTuple choices) kwargs.

(** ** [subgroups] (fields.py, lines 372-449)

    [metadata] is the dict object held by [kwargs] under that name: what the
    function stores into it is seen by the call of [choice] that ends it. *)
Definition subgroups (subgroups : dict) (args : list value)
  (default default_factory : value) (kwargs : kwargs) : M Field :=
  if negb (forallb is_dataclass_type (dict_values subgroups)) then
    raise ValueError "All values in the subgroups dict need to be dataclasses!"
  else
  let (metadata, kwargs) := kw_setdefault "metadata" (VDict []) kwargs in
  metadata <- setitem metadata "subgroups" (VDict subgroups) ;;
  metadata <- setitem metadata "subgroup_default" default ;;
  let choices := VDictKeys subgroups in
  let kwargs := kw_set "type" (VClass "str" PlainClass) kwargs in
  if negb (is_MISSING default_factory) && negb (is_MISSING default) then
    raise ValueError "Can't pass both default and default_factory!"
  else
  not_a_key <-
    (if negb (is_MISSING default) then
       is_key <- dict_contains default subgroups ;; ret (negb is_key)
     else ret false) ;;
  if not_a_key then
    raise ValueError "default must be a key in the subgroups dict!"
  else
  if negb (is_MISSING default_factory)
     && negb (seq_contains default_factory (dict_values subgroups)) then
    raise ValueError "default_factory must be a value in the subgroups dict!"
  else
  ' (metadata, default, default_factory) <-
    (if negb (is_MISSING default) then
       is_key <- dict_contains default subgroups ;;
       assert_ is_key "" ;;
       default_factory <- dict_getitem default subgroups ;;
       metadata <- setitem metadata "subgroup_default" default ;;
       ret (metadata, VMissing, default_factory)
     else if negb (is_MISSING default_factory) then
       assert_ (seq_contains default_factory (dict_values subgroups)) "" ;;
       let matching_keys :=
         map fst (filter (fun kv => py_is (snd kv) default_factory) subgroups) in
       let matching_keys :=
         match matching_keys with
         | [] =>
             map fst
               (filter (fun kv => py_eq (snd kv) default_factory) subgroups)
         | _ :: _ => matching_keys
         end in
       assert_ (negb (Nat.eqb (length matching_keys) 0)) "" ;;
       if (1 <? length matching_keys)%nat then
         raise ValueError
           "Default subgroup {default} is found more than once in the subgroups dict?"
       else
         subgroup_default <-
           (match matching_keys with
            | k :: _ => ret k
            | [] => raise IndexError "list index out of range"
            end) ;;
         metadata <- setitem metadata "subgroup_default" subgroup_default ;;
         ret (metadata, default, default_factory)
     else
       metadata <- setitem metadata "subgroup_default" VMissing ;;
       ret (metadata, default, default_factory)) ;;
  let kwargs := kw_set "metadata" metadata kwargs in
  choice (choices :: args) default
    (("default_factory", default_factory) :: kwargs).

(** ** Reading a resolved field *)

(** The metadata entry stored under a name. *)
Definition metadata_get (name : string) (f : Field) : option value :=
  match fld_metadata f with
  | VDict d => dict_find (VStr name) d
  | _ => None
  end.

(** The canonical choices: the [choices] entry of the custom arguments. *)
Definition canonical_choices (f : Field) : option value :=
  match metadata_get "custom_args" f with
  | Some (VDict custom) => dict_find (VStr "choices") custom
  | _ => None
  end.

(** ** What a call of [field] computes

    The body of [field] does three things: it writes its entries into the
    metadata dict, it lets a [store_true] or [store_false] action fix the
    default, and it builds the field.  The first two are stated on their own
    here; [field_dict] below shows that [field] is their composition. *)

Definition field_metadata (d : dict)
  (alias to_dict encoding_fn decoding_fn cmd positional : value)
  (custom_argparse_args : kwargs) : dict :=
  let d :=
    if truthy alias then
      dict_set (VStr "alias")
        (match alias with VList _ => alias | _ => VList [alias] end) d
    else d in
  let d := dict_set (VStr "to_dict") to_dict d in
  let d :=
    if negb (is_None encoding_fn)
    then dict_set (VStr "encoding_fn") encoding_fn d else d in
  let d :=
    if negb (is_None decoding_fn)
    then dict_set (VStr "decoding_fn") decoding_fn d else d in
  let d := dict_set (VStr "cmd") cmd d in
  let d := dict_set (VStr "positional") positional d in
  match custom_argparse_args with
  | [] => d
  | _ :: _ =>
      dict_set (VStr "custom_args")
        (VDict (dict_of_kwargs custom_argparse_args)) d
  end.

Definition field_default (default : value) (custom_argparse_args : kwargs)
  : M value :=
  match custom_argparse_args with
  | [] => ret default
  | _ :: _ =>
      let action :=
        match kw_get "action" custom_argparse_args with
        | Some a => a
        | None => VNone
        end in
      if py_eq action (VStr "store_false") then
        allowed <- set_contains default [VMissing; VBool true] ;;
        if negb allowed then
          raise RuntimeError
            "default should either not be passed or set to True when using the store_false action."
        else ret (VBool true)
      else if py_eq action (VStr "store_true") then
        allowed <- set_contains default [VMissing; VBool false] ;;
        if negb allowed then
          raise RuntimeError
            "default should either not be passed or set to False when using the store_true action."
        else ret (VBool false)
      else ret default
  end.

(** ** Keyword arguments a caller passes

    [**kwargs] never holds [default] (a parameter of [choice] and of
    [subgroups] themselves).  Keyword arguments are ordinary when they hold
    no [choices] either and no [store_true] or [store_false] action, the two
    ways in which a keyword makes [field] raise or replace the default. *)
Definition plain_action (kw : kwargs) : bool :=
  negb (py_eq (kw_arg "action" VNone kw) (VStr "store_false"))
  && negb (py_eq (kw_arg "action" VNone kw) (VStr "store_true")).

Definition ordinary (kw : kwargs) : Prop :=
  kw_get "default" kw = None /\ kw_get "choices" kw = None /\
  plain_action kw = true.

(** The dict that [kwargs.setdefault("metadata", {})] returns, when it is
    one. *)
Definition kw_metadata (kw : kwargs) : option dict :=
  match kw_get "metadata" kw with
  | None => Some []
  | Some (VDict d) => Some d
  | Some _ => None
  end.

(** ** The field that a call declares *)

(** The field that [field(default=default, choices=choices, **kwargs)]
    returns for ordinary keyword arguments whose [metadata] is absent or a
    dict. *)
Definition declared_field (default choices : value) (d : dict) (kw : kwargs)
  : Field :=
  mkField default
    (if is_MISSING default then kw_arg "default_factory" VMissing kw
     else VMissing)
    (kw_arg "init" (VBool true) kw) (kw_arg "repr" (VBool true) kw)
    (kw_arg "hash" VNone kw) (kw_arg "compare" (VBool true) kw)
    (VDict
       (field_metadata d
          (kw_arg "alias" VNone kw) (kw_arg "to_dict" (VBool true) kw)
          (kw_arg "encoding_fn" VNone kw) (kw_arg "decoding_fn" VNone kw)
          (kw_arg "cmd" (VBool true) kw) (kw_arg "positional" (VBool false) kw)
          (("choices", choices)
             :: filter (fun nv => negb (is_field_param (fst nv))) kw))).

(** The keyword arguments that the dict branch of [choice] passes on. *)
Definition mapping_kwargs (m d : dict) (kw : kwargs) : kwargs :=
  snd (kw_setdefault "decoding_fn" (VDecodingFn m)
         (snd (kw_setdefault "encoding_fn" (VEncodingFn m)
                 (kw_set "metadata"
                    (VDict (dict_set (VStr "choice_dict") (VDict m) d)) kw)))).

(** The mapping from names to members that [choice] builds from an enum. *)
Definition enum_dict (cls : string) (members : list string) : dict :=
  map (fun e => (VStr e, VEnumMember cls e)) members.

(** ** The selection made by [subgroups] *)

(** The keys that [subgroups] finds for a default factory: those whose value
    is the factory, or failing that those whose value equals it. *)
Definition matching_keys (m : dict) (default_factory : value) : list value :=
  match map fst (filter (fun kv => py_is (snd kv) default_factory) m) with
  | [] => map fst (filter (fun kv => py_eq (snd kv) default_factory) m)
  | _ :: _ => map fst (filter (fun kv => py_is (snd kv) default_factory) m)
  end.

(** The checks of [subgroups] on its two defaults and what they select: the
    key stored as [subgroup_default], and the default factory passed on. *)
Definition subgroup_selection (m : dict) (default default_factory : value)
  : M (value * value) :=
  if negb (is_MISSING default_factory) && negb (is_MISSING default) then
    raise ValueError "Can't pass both default and default_factory!"
  else if negb (is_MISSING default) then
    if hashable default then
      match dict_find default m with
      | Some v => ret (default, v)
      | None => raise ValueError "default must be a key in the subgroups dict!"
      end
    else raise TypeError "unhashable type"
  else if negb (is_MISSING default_factory) then
    if negb (seq_contains default_factory (dict_values m)) then
      raise ValueError "default_factory must be a value in the subgroups dict!"
    else
      match matching_keys m default_factory with
      | [] => raise AssertionError ""
      | [k] => ret (k, default_factory)
      | _ :: _ :: _ =>
          raise ValueError
            "Default subgroup {default} is found more than once in the subgroups dict?"
      end
  else ret (VMissing, VMissing).

(** The metadata dict after [subgroups] has written to it. *)
Definition subgroup_metadata (m d : dict) (default key : value) : dict :=
  dict_set (VStr "subgroup_default") key
    (dict_set (VStr "subgroup_default") default
       (dict_set (VStr "subgroups") (VDict m) d)).

(** The keyword arguments that [subgroups] passes on besides the factory. *)
Definition subgroup_kwargs (m d : dict) (default key : value) (kw : kwargs)
  : kwargs :=
  kw_set "metadata"
    (VDict
       (dict_set (VStr "subgroup_default") key
          (dict_set (VStr "subgroup_default") default
             (dict_set (VStr "subgroups") (VDict m) d))))
    (kw_set "type" (VClass "str" PlainClass)
       (snd (kw_setdefault "metadata" (VDict []) kw))).

(** The choices that [subgroups] hands to [field]: the view of the keys, in a
    tuple with the extra positional arguments when there are some. *)
Definition subgroup_choices (m : dict) (args : list value) : value :=
  match args with
  | [] => VDictKeys m
  | _ :: _ => VTuple (VDictKeys m :: args)
  end.

(** Whether an object equals a key of the mapping, which is what [x in m]
    tests. *)
Definition is_key_of (x : value) (m : dict) : Prop :=
  exists kv, In kv m /\ py_eq (fst kv) x = true.

(** ** What a resolution yields *)

(** What a resolution yields: the canonical choices, the default and the
    default factory of the field, or the exception raised. *)
Definition resolution (r : M Field)
  : outcome (option value * value * value) :=
  match fst r with
  | Ok f => Ok (canonical_choices f, fld_default f, fld_default_factory f)
  | Raised e => Raised e
  end.

(** For [subgroups], the stored default key as well. *)
Definition subgroup_resolution (r : M Field)
  : outcome (option value * value * value * option value) :=
  match fst r with
  | Ok f =>
      Ok (canonical_choices f, fld_default f, fld_default_factory f,
          metadata_get "subgroup_default" f)
  | Raised e => Raised e
  end.

(** Keyword arguments that agree on everything but [metadata]. *)
Definition same_but_metadata (kw1 kw2 : kwargs) : Prop :=
  (forall a, a <> "metadata" -> kw_get a kw1 = kw_get a kw2) /\
  filter (fun nv => negb (is_field_param (fst nv))) kw1 =
  filter (fun nv => negb (is_field_param (fst nv))) kw2.

(** ** Equality, with the list functions of the library *)

(** Equality of sequences, of the items of dicts and of key views, with the
    list functions of the library. *)
Fixpoint seq_eq (l1 l2 : list value) : bool :=
  match l1, l2 with
  | [], [] => true
  | x :: r, y :: s => py_eq x y && seq_eq r s
  | _, _ => false
  end.

Definition items_in (d1 d2 : dict) : bool :=
  forallb
    (fun kv1 =>
       existsb (fun kv2 => py_eq (fst kv1) (fst kv2)
                           && py_eq (snd kv1) (snd kv2)) d2) d1.

Definition keys_in (d1 d2 : dict) : bool :=
  forallb (fun kv1 => existsb (fun kv2 => py_eq (fst kv1) (fst kv2)) d2) d1.

(** Two calls in a row on the same arguments. *)
Definition twice (call : M Field) : M (Field * Field) :=
  f1 <- call ;;
  f2 <- call ;;
  ret (f1, f2).

(** ** Induction over nested objects *)

Section value_induction.
Variable P : value -> Prop.
Hypothesis H_none : P VNone.
Hypothesis H_missing : P VMissing.
Hypothesis H_bool : forall b, P (VBool b).
Hypothesis H_int : forall n, P (VInt n).
Hypothesis H_str : forall s, P (VStr s).
Hypothesis H_tuple : forall l, Forall P l -> P (VTuple l).
Hypothesis H_list : forall l, Forall P l -> P (VList l).
Hypothesis H_dict :
  forall d, Forall (fun kv => P (fst kv) /\ P (snd kv)) d -> P (VDict d).
Hypothesis H_keys :
  forall d, Forall (fun kv => P (fst kv) /\ P (snd kv)) d -> P (VDictKeys d).
Hypothesis H_class : forall n k, P (VClass n k).
Hypothesis H_member : forall c n, P (VEnumMember c n).
Hypothesis H_function : forall n, P (VFunction n).
Hypothesis H_encoding :
  forall d, Forall (fun kv => P (fst kv) /\ P (snd kv)) d -> P (VEncodingFn d).
Hypothesis H_decoding :
  forall d, Forall (fun kv => P (fst kv) /\ P (snd kv)) d -> P (VDecodingFn d).

Fixpoint value_nested_ind (v : value) : P v :=
  let all :=
    fix all (l : list value) : Forall P l :=
      match l with
      | [] => Forall_nil P
      | x :: r => Forall_cons x (value_nested_ind x) (all r)
      end in
  let all_items :=
    fix all_items (d : dict)
      : Forall (fun kv => P (fst kv) /\ P (snd kv)) d :=
      match d with
      | [] => Forall_nil _
      | (k, w) :: r =>
          Forall_cons (k, w)
            (conj (value_nested_ind k) (value_nested_ind w)) (all_items r)
      end in
  match v with
  | VNone => H_none
  | VMissing => H_missing
  | VBool b => H_bool b
  | VInt n => H_int n
  | VStr s => H_str s
  | VTuple l => H_tuple l (all l)
  | VList l => H_list l (all l)
  | VDict d => H_dict d (all_items d)
  | VDictKeys d => H_keys d (all_items d)
  | VClass n k => H_class n k
  | VEnumMember c n => H_member c n
  | VFunction n => H_function n
  | VEncodingFn d => H_encoding d (all_items d)
  | VDecodingFn d => H_decoding d (all_items d)
  end.
End value_induction.

(** ** Examples of the spec *)

Definition TypeA : value := VClass "TypeA" DataClass.
Definition TypeB : value := VClass "TypeB" DataClass.
Definition Color : value := VClass "Color" (EnumClass ["A"; "B"; "C"]).
Definition sizes : dict := [(VStr "small", VInt 1); (VStr "big", VInt 100)].

(** * The other helpers of fields.py *)

(** ** Calling [field] by keyword

    A call [field(name=value, ...)]: each parameter takes the keyword of its
    name, else its default; every other keyword lands in
    [custom_argparse_args], in call order. *)
Definition field_kw (kw : kwargs) : M Field :=
  field (kw_arg "default" VMissing kw)
    (kw_arg "alias" VNone kw) (kw_arg "cmd" (VBool true) kw)
    (kw_arg "positional" (VBool false) kw) (kw_arg "to_dict" (VBool true) kw)
    (kw_arg "encoding_fn" VNone kw) (kw_arg "decoding_fn" VNone kw)
    (kw_arg "default_factory" VMissing kw)
    (kw_arg "init" (VBool true) kw) (kw_arg "repr" (VBool true) kw)
    (kw_arg "hash" VNone kw) (kw_arg "compare" (VBool true) kw)
    (kw_arg "metadata" VNone kw)
    (filter (fun nv => negb (is_field_param (fst nv))) kw).

(** The keyword arguments left by [kwargs.pop(name, ...)]. *)
Definition kw_remove (name : string) (kw : kwargs) : kwargs :=
  filter (fun nv => negb (String.eqb (fst nv) name)) kw.

(** An entry of the custom arguments stored in the metadata of a field. *)
Definition custom_arg (name : string) (f : Field) : option value :=
  match metadata_get "custom_args" f with
  | Some (VDict custom) => dict_find (VStr name) custom
  | _ => None
  end.

(** ** [flag] (fields.py, lines 464-467)

    [str2bool] is imported from [simple_parsing.utils]; [flag] only passes it
    on. *)
Definition str2bool : value := VFunction "str2bool".

Definition flag (default : value) (kwargs : kwargs) : M Field :=
  let action :=
    if py_is default (VBool false) then VStr "store_true"
    else VStr "store_false" in
  if kw_mem "default" kwargs || kw_mem "nargs" kwargs
     || kw_mem "action" kwargs || kw_mem "type" kwargs then
    raise TypeError "field() got multiple values for keyword argument"
  else
    field_kw (("default", default) :: ("nargs", VStr "?")
                :: ("action", action) :: ("type", str2bool) :: kwargs).

(** ** [subparsers] (fields.py, lines 452-461) *)
Definition subparsers (subcommands : dict) (default : value) (kwargs : kwargs)
  : M Field :=
  if kw_mem "metadata" kwargs || kw_mem "default" kwargs then
    raise TypeError "field() got multiple values for keyword argument"
  else
    field_kw (("metadata", VDict [(VStr "subparsers", VDict subcommands)])
                :: ("default", default) :: kwargs).

(** ** [mutable_field], [list_field], [dict_field], [set_field]
       (fields.py, lines 251-317)

    These functions make three kinds of objects with Python's library and
    pass them on without looking into them: [functools.partial(f, *args)],
    the function [lambda: deepcopy(default)] and the view [d.items()].  Which
    objects these are is left open. *)
(** The parameters of [mutable_field] that a keyword can name, besides
    [_type]. *)
Definition is_mutable_field_param (name : string) : bool :=
  existsb (String.eqb name) ["init"; "repr"; "hash"; "compare"; "metadata"].

Section library_objects.
Variable partial : value -> list value -> value.
Variable deepcopy_lambda : value -> value.
Variable dict_items : dict -> value.

Definition mutable_field (_type : value) (args : list value)
  (init repr hash compare metadata : value) (kwargs : kwargs) : M Field :=
  let default_factory := kw_arg "default_factory" (partial _type args) kwargs in
  let kwargs := kw_remove "default_factory" kwargs in
  field_kw (("default_factory", default_factory) :: ("init", init)
              :: ("repr", repr) :: ("hash", hash) :: ("compare", compare)
              :: ("metadata", metadata) :: kwargs).

(** The call [mutable_field(_type, *args, **kwargs)]. *)
Definition call_mutable_field (_type : value) (args : list value)
  (kwargs : kwargs) : M Field :=
  if kw_mem "_type" kwargs then
    raise TypeError "mutable_field() got multiple values for argument '_type'"
  else
    mutable_field _type args
      (kw_arg "init" (VBool true) kwargs) (kw_arg "repr" (VBool true) kwargs)
      (kw_arg "hash" VNone kwargs) (kw_arg "compare" (VBool true) kwargs)
      (kw_arg "metadata" VNone kwargs)
      (filter (fun nv => negb (is_mutable_field_param (fst nv))) kwargs).

Definition list_field (default_items : list value) (kwargs : kwargs)
  : M Field :=
  let default := kw_arg "default" VNone kwargs in
  let kwargs := kw_remove "default" kwargs in
  let kwargs :=
    match default with
    | VList _ => kw_set "default_factory" (deepcopy_lambda default) kwargs
    | _ => kwargs
    end in
  call_mutable_field list_type [VTuple default_items] kwargs.

Definition dict_field (default_items : value) (kwargs : kwargs) : M Field :=
  let default_items :=
    match default_items with
    | VNone => VDict []
    | VDict d => dict_items d
    | _ => default_items
    end in
  call_mutable_field dict_type [default_items] kwargs.

Definition set_field (default_items : list value) (kwargs : kwargs)
  : M Field :=
  call_mutable_field set_type [VTuple default_items] kwargs.
End library_objects.

(** ** What these calls return *)

(** The field that [field_kw] builds once the default is settled. *)
Definition kw_field (default : value) (d : dict) (kw : kwargs) : Field :=
  mkField default
    (if is_MISSING default then kw_arg "default_factory" VMissing kw
     else VMissing)
    (kw_arg "init" (VBool true) kw) (kw_arg "repr" (VBool true) kw)
    (kw_arg "hash" VNone kw) (kw_arg "compare" (VBool true) kw)
    (VDict
       (field_metadata d
          (kw_arg "alias" VNone kw) (kw_arg "to_dict" (VBool true) kw)
          (kw_arg "encoding_fn" VNone kw) (kw_arg "decoding_fn" VNone kw)
          (kw_arg "cmd" (VBool true) kw) (kw_arg "positional" (VBool false) kw)
          (filter (fun nv => negb (is_field_param (fst nv))) kw))).

(** The message of the [RuntimeError] of [field] for an action: [true] for
    [store_true], [false] for [store_false]. *)
Definition store_action (b : bool) : string :=
  if b then "store_true" else "store_false".

Definition store_message (b : bool) : string :=
  if b then
    "default should either not be passed or set to False when using the store_true action."
  else
    "default should either not be passed or set to True when using the store_false action.".

(** The keyword arguments that [flag] passes to [field]. *)
Definition flag_kwargs (default : value) (kw : kwargs) : kwargs :=
  ("default", default) :: ("nargs", VStr "?")
    :: ("action", VStr (store_action (py_is default (VBool false))))
    :: ("type", str2bool) :: kw.

(** The keyword arguments that [mutable_field] passes to [field]. *)
Definition mutable_kwargs (default_factory : value) (kw : kwargs) : kwargs :=
  ("default_factory", default_factory)
    :: ("init", kw_arg "init" (VBool true) kw)
    :: ("repr", kw_arg "repr" (VBool true) kw)
    :: ("hash", kw_arg "hash" VNone kw)
    :: ("compare", kw_arg "compare" (VBool true) kw)
    :: ("metadata", kw_arg "metadata" VNone kw)
    :: kw_remove "default_factory"
         (filter (fun nv => negb (is_mutable_field_param (fst nv))) kw).

(** The items that [dict_field] hands to [functools.partial]. *)
Definition dict_field_items (dict_items : dict -> value) (default_items : value)
  : value :=
  match default_items with
  | VNone => VDict []
  | VDict d => dict_items d
  | _ => default_items
  end.

(** A dict as Python keeps it: its keys can be hashed and no two are equal.
    Its values are distinct when no two of them are equal. *)
Fixpoint dict_wf (m : dict) : Prop :=
  match m with
  | [] => True
  | (k, _) :: r =>
      hashable k = true /\
      (forall kv, In kv r -> py_eq k (fst kv) = false) /\ dict_wf r
  end.

Fixpoint values_distinct (m : dict) : Prop :=
  match m with
  | [] => True
  | (_, v) :: r =>
      (forall kv, In kv r -> py_eq v (snd kv) = false) /\ values_distinct r
  end.

(** * Properties *)

(** ** The monad *)

Lemma bind_ret {A B} (a : A) (f : A -> M B) : bind (ret a) f = f a.
Proof. unfold bind, ret. destruct (f a); reflexivity. Qed.

(** Runs the statements that cannot fail. *)
Ltac run_steps :=
  repeat (progress (cbn [setitem update1 assert_ negb andb];
                    rewrite ?bind_ret)).

(** ** Equality and identity of objects *)

Lemma py_eq_str_r (x : value) (s : string) :
  py_eq x (VStr s) = true <-> x = VStr s.
Proof.
  destruct x; simpl; split; intros H; try discriminate; try congruence.
  - apply String.eqb_eq in H. now subst.
  - injection H as ->. apply String.eqb_refl.
Qed.

Lemma py_eq_str_l (x : value) (s : string) :
  py_eq (VStr s) x = true <-> x = VStr s.
Proof.
  destruct x; simpl; split; intros H; try discriminate; try congruence.
  - apply String.eqb_eq in H. now subst.
  - injection H as ->. apply String.eqb_refl.
Qed.

(** Identity implies equality. *)
Lemma py_is_py_eq (a b : value) : py_is a b = true -> py_eq a b = true.
Proof. destruct a, b; simpl; intros H; try discriminate; exact H. Qed.

(** A dataclass type equals an object exactly when it is that object. *)
Lemma py_is_dataclass (v x : value) :
  is_dataclass_type v = true -> py_is v x = py_eq v x.
Proof. destruct v; simpl; try discriminate. destruct x; reflexivity. Qed.

(** ** Dicts *)

Lemma dict_find_set_same (k : string) (v : value) (d : dict) :
  dict_find (VStr k) (dict_set (VStr k) v d) = Some v.
Proof.
  induction d as [|[k' v'] r IH]; simpl.
  - now rewrite String.eqb_refl.
  - destruct (py_eq k' (VStr k)) eqn:E; simpl; rewrite E; auto.
Qed.

Lemma dict_find_set_other (a b : string) (v : value) (d : dict) :
  a <> b ->
  dict_find (VStr a) (dict_set (VStr b) v d) = dict_find (VStr a) d.
Proof.
  intros Hab. induction d as [|[k' v'] r IH]; simpl.
  - destruct (String.eqb_spec b a); congruence.
  - destruct (py_eq k' (VStr b)) eqn:E; simpl.
    + apply py_eq_str_r in E. subst k'. simpl.
      destruct (String.eqb_spec b a); congruence.
    + now rewrite IH.
Qed.

Lemma dict_find_none (x : value) (d : dict) :
  dict_find x d = None <-> forall kv, In kv d -> py_eq (fst kv) x = false.
Proof.
  induction d as [|[k v] r IH]; simpl.
  - split; [intros _ kv [] | reflexivity].
  - destruct (py_eq k x) eqn:E.
    + split; [discriminate|]. intros H. specialize (H (k, v) (or_introl eq_refl)).
      simpl in H. congruence.
    + rewrite IH. split.
      * intros H kv [<-|Hin]; auto.
      * intros H kv Hin. apply H. now right.
Qed.

Lemma dict_find_some (x v : value) (d : dict) :
  dict_find x d = Some v ->
  exists pre k post,
    d = pre ++ (k, v) :: post /\ py_eq k x = true /\
    forall kv, In kv pre -> py_eq (fst kv) x = false.
Proof.
  induction d as [|[k w] r IH]; simpl; [discriminate|].
  destruct (py_eq k x) eqn:E.
  - intros [= ->]. exists [], k, r. repeat split; auto. intros kv [].
  - intros H. destruct (IH H) as (pre & k' & post & -> & Hk & Hpre).
    exists ((k, w) :: pre), k', post. repeat split; auto.
    intros kv [<-|Hin]; auto.
Qed.

(** ** Keyword arguments *)

Lemma kw_get_set_same name v kw : kw_get name (kw_set name v kw) = Some v.
Proof.
  induction kw as [|[n w] r IH]; simpl.
  - now rewrite String.eqb_refl.
  - destruct (String.eqb n name) eqn:E; simpl; rewrite E; auto.
Qed.

Lemma kw_get_set_other a b v kw :
  a <> b -> kw_get a (kw_set b v kw) = kw_get a kw.
Proof.
  intros Hab. induction kw as [|[n w] r IH]; simpl.
  - destruct (String.eqb_spec b a); congruence.
  - destruct (String.eqb_spec n b) as [->|Hn]; simpl.
    + destruct (String.eqb_spec b a); congruence.
    + now rewrite IH.
Qed.

Lemma kw_get_app a kw kw' :
  kw_get a (kw ++ kw') =
  match kw_get a kw with Some v => Some v | None => kw_get a kw' end.
Proof.
  induction kw as [|[n w] r IH]; simpl; auto.
  destruct (String.eqb n a); auto.
Qed.

Lemma kw_get_setdefault_other a b v kw :
  a <> b -> kw_get a (snd (kw_setdefault b v kw)) = kw_get a kw.
Proof.
  intros Hab. unfold kw_setdefault. destruct (kw_get b kw); simpl; auto.
  rewrite kw_get_app. simpl. destruct (kw_get a kw); auto.
  destruct (String.eqb_spec b a); congruence.
Qed.

Lemma kw_get_setdefault_same a v kw :
  kw_get a (snd (kw_setdefault a v kw)) =
  Some (match kw_get a kw with Some w => w | None => v end).
Proof.
  unfold kw_setdefault. destruct (kw_get a kw) eqn:E; simpl; auto.
  rewrite kw_get_app, E. simpl. now rewrite String.eqb_refl.
Qed.

(** Filtering the parameters of [field] out keeps every other keyword. *)
Lemma kw_get_custom a kw :
  is_field_param a = false ->
  kw_get a (filter (fun nv => negb (is_field_param (fst nv))) kw) = kw_get a kw.
Proof.
  intros Ha. induction kw as [|[n w] r IH]; simpl; auto.
  destruct (is_field_param n) eqn:En; simpl.
  - destruct (String.eqb_spec n a); [congruence | auto].
  - destruct (String.eqb n a); auto.
Qed.

(** ** [field] *)

(** [field] on a metadata dict: the default is settled by the action, the
    factory is kept only when no default remains, and the metadata are
    [field_metadata]. *)
Lemma field_dict default alias cmd positional to_dict encoding_fn decoding_fn
  default_factory init repr hash compare d custom :
  field default alias cmd positional to_dict encoding_fn decoding_fn
    default_factory init repr hash compare (VDict d) custom =
  (default' <- field_default default custom ;;
   ret (mkField default'
          (if is_MISSING default' then default_factory else VMissing)
          init repr hash compare
          (VDict (field_metadata d alias to_dict encoding_fn decoding_fn
                    cmd positional custom)))).
Proof.
  unfold field, field_metadata, field_default, setitem, update1, set_contains.
  cbn [is_None negb].
  destruct (truthy alias), (is_None encoding_fn), (is_None decoding_fn);
    cbn [negb]; rewrite ?bind_ret;
    (destruct custom as [|c custom]; [|
       destruct (py_eq _ (VStr "store_false"));
       [| destruct (py_eq _ (VStr "store_true"))];
       try (destruct (hashable default); [|reflexivity];
            rewrite ?bind_ret;
            match goal with |- context [negb ?b] => destruct b end; cbn [negb])]);
    rewrite ?bind_ret; cbn [is_MISSING negb];
    unfold dataclasses_field; cbn [is_MISSING negb andb];
    try reflexivity;
    destruct (is_MISSING default) eqn:Ed; cbn [negb];
    try (destruct default; try discriminate Ed);
    try reflexivity;
    destruct (is_MISSING default_factory) eqn:Ef; cbn [negb];
    try (destruct default_factory; try discriminate Ef);
    reflexivity.
Qed.

(** [metadata=None] stands for a fresh empty dict. *)
Lemma field_none default alias cmd positional to_dict encoding_fn decoding_fn
  default_factory init repr hash compare custom :
  field default alias cmd positional to_dict encoding_fn decoding_fn
    default_factory init repr hash compare VNone custom =
  field default alias cmd positional to_dict encoding_fn decoding_fn
    default_factory init repr hash compare (VDict []) custom.
Proof. reflexivity. Qed.

(** Without a [store_true] or [store_false] action the default is kept. *)
Lemma field_default_plain default custom :
  plain_action custom = true -> field_default default custom = ret default.
Proof.
  unfold plain_action, kw_arg, field_default. intros H.
  destruct custom as [|c custom]; [reflexivity|].
  apply andb_true_iff in H as [H1 H2].
  apply negb_true_iff in H1, H2. now rewrite H1, H2.
Qed.

Lemma field_metadata_custom_args d alias to_dict enc dec cmd positional c custom :
  dict_find (VStr "custom_args")
    (field_metadata d alias to_dict enc dec cmd positional (c :: custom)) =
  Some (VDict (dict_of_kwargs (c :: custom))).
Proof. unfold field_metadata. apply dict_find_set_same. Qed.

(** Entries that [field] does not write are those of the caller's dict. *)
Lemma field_metadata_other k d alias to_dict enc dec cmd positional custom :
  ~ In k ["alias"; "to_dict"; "encoding_fn"; "decoding_fn"; "cmd";
          "positional"; "custom_args"] ->
  dict_find (VStr k)
    (field_metadata d alias to_dict enc dec cmd positional custom) =
  dict_find (VStr k) d.
Proof.
  intros Hk. unfold field_metadata.
  assert (Hne : forall s, In s ["alias"; "to_dict"; "encoding_fn";
                                "decoding_fn"; "cmd"; "positional";
                                "custom_args"] -> k <> s).
  { intros s Hs ->. contradiction. }
  destruct custom; destruct (truthy alias), (negb (is_None enc)),
    (negb (is_None dec));
    repeat (rewrite dict_find_set_other by (apply Hne; simpl; tauto));
    reflexivity.
Qed.

Lemma field_metadata_encoding_fn d alias to_dict enc dec cmd positional custom :
  is_None enc = false ->
  dict_find (VStr "encoding_fn")
    (field_metadata d alias to_dict enc dec cmd positional custom) = Some enc.
Proof.
  intros He. unfold field_metadata. rewrite He. cbn [negb].
  destruct custom; destruct (negb (is_None dec));
    repeat (rewrite dict_find_set_other by discriminate);
    apply dict_find_set_same.
Qed.

Lemma field_metadata_decoding_fn d alias to_dict enc dec cmd positional custom :
  is_None dec = false ->
  dict_find (VStr "decoding_fn")
    (field_metadata d alias to_dict enc dec cmd positional custom) = Some dec.
Proof.
  intros He. unfold field_metadata. rewrite He. cbn [negb].
  destruct custom;
    repeat (rewrite dict_find_set_other by discriminate);
    apply dict_find_set_same.
Qed.

Lemma call_field_ordinary default choices kw d :
  ordinary kw -> kw_metadata kw = Some d ->
  call_field default choices kw = ret (declared_field default choices d kw).
Proof.
  intros (Hd & Hc & Ha) Hm. unfold call_field, kw_mem.
  rewrite Hd, Hc. cbn [orb].
  assert (Hcustom : plain_action
            (("choices", choices)
               :: filter (fun nv => negb (is_field_param (fst nv))) kw) = true).
  { revert Ha. unfold plain_action, kw_arg. cbn [kw_get String.eqb].
    change (("choices" =? "action")%string) with false. cbn iota.
    now rewrite kw_get_custom by reflexivity. }
  assert (Hf : forall md,
             md = VDict d \/ (md = VNone /\ d = []) ->
             field default (kw_arg "alias" VNone kw)
               (kw_arg "cmd" (VBool true) kw)
               (kw_arg "positional" (VBool false) kw)
               (kw_arg "to_dict" (VBool true) kw)
               (kw_arg "encoding_fn" VNone kw) (kw_arg "decoding_fn" VNone kw)
               (kw_arg "default_factory" VMissing kw)
               (kw_arg "init" (VBool true) kw) (kw_arg "repr" (VBool true) kw)
               (kw_arg "hash" VNone kw) (kw_arg "compare" (VBool true) kw) md
               (("choices", choices)
                  :: filter (fun nv => negb (is_field_param (fst nv))) kw)
             = ret (declared_field default choices d kw)).
  { intros md [-> | [-> ->]]; [| rewrite field_none];
      rewrite field_dict, (field_default_plain _ _ Hcustom), bind_ret;
      reflexivity. }
  apply Hf. unfold kw_metadata, kw_arg in *.
  destruct (kw_get "metadata" kw) as [[]|]; try discriminate;
    injection Hm as <-; auto.
Qed.

Lemma canonical_choices_declared default choices d kw :
  canonical_choices (declared_field default choices d kw) = Some choices.
Proof.
  unfold canonical_choices, metadata_get, declared_field. cbn [fld_metadata].
  now rewrite field_metadata_custom_args.
Qed.

Lemma metadata_get_declared k default choices d kw :
  ~ In k ["alias"; "to_dict"; "encoding_fn"; "decoding_fn"; "cmd";
          "positional"; "custom_args"] ->
  metadata_get k (declared_field default choices d kw) = dict_find (VStr k) d.
Proof.
  intros Hk. unfold metadata_get, declared_field. cbn [fld_metadata].
  now apply field_metadata_other.
Qed.

(** ** [choice]: which call of [field] it ends in *)

Lemma choice_none default kw :
  choice [] default kw =
  raise AssertionError "Choice requires at least one positional argument!".
Proof. reflexivity. Qed.

Lemma choice_many c1 c2 rest default kw :
  choice (c1 :: c2 :: rest) default kw =
  call_field default (VTuple (c1 :: c2 :: rest)) kw.
Proof.
  unfold choice. cbn [length Nat.ltb Nat.leb Nat.eqb assert_].
  now rewrite bind_ret.
Qed.

(** A single argument that is neither an enum class nor a dict is passed on
    as it is. *)
Lemma choice_single_plain c default kw :
  is_enum_class c = false -> (forall m, c <> VDict m) ->
  choice [c] default kw = call_field default c kw.
Proof.
  intros He Hd. unfold choice.
  cbn [length Nat.ltb Nat.leb Nat.eqb assert_ nth]. rewrite bind_ret.
  destruct c; try (rewrite bind_ret; reflexivity).
  - exfalso. now apply (Hd items).
  - destruct kind; try discriminate He; rewrite bind_ret; reflexivity.
Qed.

Lemma kw_set_absent n v w kw :
  kw_get n kw = None -> kw_set n v (kw ++ [(n, w)]) = kw_set n v kw.
Proof.
  induction kw as [|[a x] r IH]; simpl.
  - now rewrite String.eqb_refl.
  - destruct (String.eqb a n); [discriminate|]. intros H. now rewrite IH.
Qed.

Lemma choice_mapping m default kw d :
  kw_metadata kw = Some d ->
  choice [VDict m] default kw =
  call_field default (VList (dict_keys m)) (mapping_kwargs m d kw).
Proof.
  intros Hm. unfold choice.
  cbn [length Nat.ltb Nat.leb Nat.eqb assert_ nth]. rewrite !bind_ret.
  unfold kw_metadata in Hm. unfold mapping_kwargs.
  unfold kw_setdefault at 1.
  destruct (kw_get "metadata" kw) as [[]|] eqn:E; try discriminate;
    injection Hm as <-; cbn [setitem]; rewrite bind_ret.
  - reflexivity.
  - now rewrite kw_set_absent.
Qed.

Lemma mapping_kwargs_get a m d kw :
  a <> "metadata" -> a <> "encoding_fn" -> a <> "decoding_fn" ->
  kw_get a (mapping_kwargs m d kw) = kw_get a kw.
Proof.
  intros H1 H2 H3. unfold mapping_kwargs.
  now rewrite !kw_get_setdefault_other, kw_get_set_other.
Qed.

Lemma mapping_kwargs_metadata m d kw :
  kw_metadata (mapping_kwargs m d kw) =
  Some (dict_set (VStr "choice_dict") (VDict m) d).
Proof.
  unfold kw_metadata, mapping_kwargs.
  rewrite !kw_get_setdefault_other by discriminate.
  now rewrite kw_get_set_same.
Qed.

Lemma mapping_kwargs_ordinary m d kw :
  ordinary kw -> ordinary (mapping_kwargs m d kw).
Proof.
  intros (Hd & Hc & Ha). unfold ordinary, plain_action, kw_arg in *.
  rewrite !mapping_kwargs_get by discriminate. auto.
Qed.

(** The dict branch of [choice], for ordinary keyword arguments. *)
Lemma choice_mapping_ordinary m default kw d :
  ordinary kw -> kw_metadata kw = Some d ->
  choice [VDict m] default kw =
  ret (declared_field default (VList (dict_keys m))
         (dict_set (VStr "choice_dict") (VDict m) d) (mapping_kwargs m d kw)).
Proof.
  intros Ho Hm. rewrite (choice_mapping _ _ _ _ Hm).
  apply call_field_ordinary.
  - now apply mapping_kwargs_ordinary.
  - apply mapping_kwargs_metadata.
Qed.

Lemma bind_assoc {A B C} (m : M A) (f : A -> M B) (g : B -> M C) :
  bind (bind m f) g = bind m (fun x => bind (f x) g).
Proof.
  destruct m as [[a|e] ws]; simpl; [|reflexivity].
  destruct (f a) as [[b|e] ws1]; simpl; [|reflexivity].
  destruct (g b) as [r ws2]. now rewrite app_assoc.
Qed.

Lemma bind_warn {B} (w : warning) (f : unit -> M B) :
  bind (warn w) f = (fst (f tt), w :: snd (f tt)).
Proof. unfold bind, warn. destruct (f tt); reflexivity. Qed.

(** ** Enum classes *)

Lemma dict_set_fresh k v d :
  (forall kv, In kv d -> py_eq (fst kv) k = false) ->
  dict_set k v d = d ++ [(k, v)].
Proof.
  induction d as [|[k' v'] r IH]; simpl; intros H; [reflexivity|].
  pose proof (H (k', v') (or_introl eq_refl)) as Hk. simpl in Hk.
  rewrite Hk. f_equal. apply IH.
  intros kv Hin. apply H. now right.
Qed.

Lemma dict_of_pairs_enum_acc cls members : forall acc,
  NoDup members ->
  (forall e kv, In e members -> In kv acc -> py_eq (fst kv) (VStr e) = false) ->
  fold_left (fun d kv => dict_set (fst kv) (snd kv) d)
    (enum_dict cls members) acc = acc ++ enum_dict cls members.
Proof.
  induction members as [|e r IH]; intros acc Hnd Hacc; simpl.
  - now rewrite app_nil_r.
  - inversion Hnd as [|? ? Hnotin Hnd']; subst.
    rewrite dict_set_fresh by (intros kv Hin; apply (Hacc e kv); simpl; auto).
    rewrite IH; auto.
    + now rewrite <- app_assoc.
    + intros e' kv He' Hin. apply in_app_or in Hin as [Hin|[<-|[]]].
      * apply (Hacc e' kv); simpl; auto.
      * simpl. apply String.eqb_neq. intros ->. contradiction.
Qed.

(** The names of an enum are distinct, so the mapping lists them all, in
    definition order. *)
Lemma dict_of_pairs_enum cls members :
  NoDup members -> dict_of_pairs (enum_dict cls members) = enum_dict cls members.
Proof.
  intros Hnd. unfold dict_of_pairs.
  rewrite dict_of_pairs_enum_acc; auto. intros e kv _ [].
Qed.

Lemma enum_dict_keys cls members :
  dict_keys (enum_dict cls members) = map VStr members.
Proof. unfold dict_keys, enum_dict. rewrite map_map. reflexivity. Qed.

Lemma enum_dict_find_name cls members n :
  In n members ->
  dict_find (VStr n) (enum_dict cls members) = Some (VEnumMember cls n).
Proof.
  induction members as [|e r IH]; simpl; [intros []|].
  destruct (String.eqb_spec e n) as [->|Hne]; [reflexivity|].
  intros [->|Hin]; [contradiction | auto].
Qed.

Lemma enum_dict_find_other cls members x :
  (forall n, In n members -> x <> VStr n) ->
  dict_find x (enum_dict cls members) = None.
Proof.
  intros H. apply dict_find_none. intros kv Hin.
  unfold enum_dict in Hin. apply in_map_iff in Hin as (e & <- & He).
  cbn [fst]. destruct (py_eq (VStr e) x) eqn:E; [|reflexivity].
  apply py_eq_str_l in E. now apply H in He.
Qed.

(** A default that is absent or a member: the enum is handled as the dict
    of its members. *)
Lemma choice_enum_keep cls members default kw :
  NoDup members ->
  is_MISSING default = true \/ isinstance_enum default cls = true ->
  choice [VClass cls (EnumClass members)] default kw =
  choice [VDict (enum_dict cls members)] default kw.
Proof.
  intros Hnd Hdef. unfold choice.
  cbn [length Nat.ltb Nat.leb Nat.eqb assert_ nth]. rewrite !bind_ret.
  fold (enum_dict cls members). rewrite (dict_of_pairs_enum _ _ Hnd).
  assert (E : negb (is_MISSING default) && negb (isinstance_enum default cls)
              = false).
  { destruct Hdef as [-> | ->]; [reflexivity | apply andb_false_r]. }
  rewrite E. rewrite !bind_ret. reflexivity.
Qed.

(** A default that is the name of a member: a warning, then the enum is
    handled as the dict of its members, with the member as default. *)
Lemma choice_enum_name cls members n kw :
  NoDup members -> In n members ->
  choice [VClass cls (EnumClass members)] (VStr n) kw =
  (warn (UserWarning (VStr n) (VEnumMember cls n)) ;;
   choice [VDict (enum_dict cls members)] (VEnumMember cls n) kw).
Proof.
  intros Hnd Hn. unfold choice.
  cbn [length Nat.ltb Nat.leb Nat.eqb assert_ nth]. rewrite !bind_ret.
  fold (enum_dict cls members). rewrite (dict_of_pairs_enum _ _ Hnd).
  cbn [is_MISSING isinstance_enum negb andb].
  unfold dict_contains, dict_getitem. cbn [hashable].
  rewrite (enum_dict_find_name _ _ _ Hn). rewrite !bind_ret.
  rewrite !bind_assoc, !bind_warn. cbv beta. rewrite !bind_ret.
  reflexivity.
Qed.

(** A default that is neither a member nor the name of one. *)
Lemma choice_enum_invalid cls members default kw :
  NoDup members ->
  is_MISSING default = false -> isinstance_enum default cls = false ->
  (forall n, In n members -> default <> VStr n) ->
  choice [VClass cls (EnumClass members)] default kw =
  if hashable default then
    raise ValueError
      "'default' arg should be of type {choice_enum}, but got {default}"
  else raise TypeError "unhashable type".
Proof.
  intros Hnd Hm Hi Hn. unfold choice.
  cbn [length Nat.ltb Nat.leb Nat.eqb assert_ nth]. rewrite !bind_ret.
  fold (enum_dict cls members). rewrite (dict_of_pairs_enum _ _ Hnd).
  rewrite Hm, Hi. cbn [negb andb]. unfold dict_contains.
  rewrite (enum_dict_find_other _ _ _ Hn).
  destruct (hashable default); reflexivity.
Qed.

(** ** [subgroups] *)

Lemma subgroups_not_dataclasses m args default default_factory kw :
  forallb is_dataclass_type (dict_values m) = false ->
  subgroups m args default default_factory kw =
  raise ValueError "All values in the subgroups dict need to be dataclasses!".
Proof. intros H. unfold subgroups. now rewrite H. Qed.

Lemma subgroups_eq m args default default_factory kw d :
  forallb is_dataclass_type (dict_values m) = true ->
  kw_metadata kw = Some d ->
  subgroups m args default default_factory kw =
  (' (key, factory) <- subgroup_selection m default default_factory ;;
   choice (VDictKeys m :: args) VMissing
     (("default_factory", factory) :: subgroup_kwargs m d default key kw)).
Proof.
  intros Hdc Hm. unfold subgroups, subgroup_selection, subgroup_kwargs.
  rewrite Hdc. cbn [negb].
  assert (Hsd : kw_setdefault "metadata" (VDict []) kw =
                (VDict d, snd (kw_setdefault "metadata" (VDict []) kw))).
  { unfold kw_metadata in Hm. unfold kw_setdefault.
    destruct (kw_get "metadata" kw) as [[]|]; try discriminate;
      injection Hm as <-; reflexivity. }
  rewrite Hsd at 1. run_steps.
  destruct (is_MISSING default_factory) eqn:Ef;
    destruct (is_MISSING default) eqn:Ed; cbn [negb andb].
  - destruct default; try discriminate Ed.
    destruct default_factory; try discriminate Ef.
    run_steps. reflexivity.
  - unfold dict_contains, dict_getitem.
    destruct (hashable default); [|reflexivity].
    destruct (dict_find default m) as [v|]; run_steps; reflexivity.
  - destruct default; try discriminate Ed. run_steps.
    destruct (seq_contains default_factory (dict_values m)); cbn [negb];
      [|reflexivity].
    run_steps. fold (matching_keys m default_factory).
    destruct (matching_keys m default_factory) as [|k [|k' ks]];
      cbn [length Nat.eqb negb assert_ Nat.ltb Nat.leb]; run_steps;
      reflexivity.
  - reflexivity.
Qed.

Lemma subgroups_bad_metadata m args default default_factory kw :
  forallb is_dataclass_type (dict_values m) = true ->
  kw_metadata kw = None ->
  subgroups m args default default_factory kw =
  raise TypeError "object does not support item assignment".
Proof.
  intros Hdc Hm. unfold subgroups. rewrite Hdc. cbn [negb].
  unfold kw_metadata in Hm. unfold kw_setdefault.
  destruct (kw_get "metadata" kw) as [[]|]; try discriminate; reflexivity.
Qed.

(** With dataclass types as values, identity and equality select the same
    keys. *)
Lemma matching_keys_dataclasses m default_factory :
  forallb is_dataclass_type (dict_values m) = true ->
  matching_keys m default_factory =
  map fst (filter (fun kv => py_eq (snd kv) default_factory) m).
Proof.
  intros Hdc. unfold matching_keys.
  assert (E : filter (fun kv => py_is (snd kv) default_factory) m =
              filter (fun kv => py_eq (snd kv) default_factory) m).
  { apply filter_ext_in. intros kv Hin. apply py_is_dataclass.
    rewrite forallb_forall in Hdc. apply Hdc. unfold dict_values.
    now apply in_map. }
  rewrite E. now destruct (map fst _).
Qed.

Lemma seq_contains_false x l :
  seq_contains x l = false <-> forall v, In v l -> py_eq v x = false.
Proof.
  unfold seq_contains. split.
  - intros H v Hin. destruct (py_eq v x) eqn:E; [|reflexivity].
    assert (Hex : existsb (fun v => py_is v x || py_eq v x) l = true).
    { apply existsb_exists. exists v. split; [assumption|].
      rewrite E. apply orb_true_r. }
    congruence.
  - intros H. destruct (existsb _ l) eqn:E; [|reflexivity].
    apply existsb_exists in E as (v & Hin & Hv).
    apply orb_true_iff in Hv as [Hv|Hv].
    + apply py_is_py_eq in Hv. rewrite (H v Hin) in Hv. discriminate.
    + rewrite (H v Hin) in Hv. discriminate.
Qed.

Lemma dict_find_first x pre k v post :
  py_eq k x = true ->
  (forall kv, In kv pre -> py_eq (fst kv) x = false) ->
  dict_find x (pre ++ (k, v) :: post) = Some v.
Proof.
  intros Hk. induction pre as [|[k' v'] r IH]; simpl; intros Hpre.
  - now rewrite Hk.
  - pose proof (Hpre (k', v') (or_introl eq_refl)) as E. simpl in E.
    rewrite E. apply IH. intros kv Hin. apply Hpre. now right.
Qed.

Lemma filter_first {A} (p : A -> bool) pre a post :
  p a = true -> (forall b, In b pre -> p b = false) ->
  filter p (pre ++ a :: post) = a :: filter p post.
Proof.
  intros Ha. induction pre as [|b r IH]; simpl; intros Hpre.
  - now rewrite Ha.
  - rewrite (Hpre b (or_introl eq_refl)). apply IH. intros c Hin.
    apply Hpre. now right.
Qed.

(** ** [subgroups]: the field it returns *)

Lemma choice_keys_view m args default kw :
  choice (VDictKeys m :: args) default kw =
  call_field default (subgroup_choices m args) kw.
Proof.
  destruct args as [|a args].
  - apply choice_single_plain; [reflexivity | discriminate].
  - apply choice_many.
Qed.

Lemma subgroup_kwargs_get a m d default key factory kw :
  a <> "default_factory" -> a <> "metadata" -> a <> "type" ->
  kw_get a (("default_factory", factory) :: subgroup_kwargs m d default key kw)
  = kw_get a kw.
Proof.
  intros H1 H2 H3. unfold subgroup_kwargs. cbn [kw_get].
  destruct (String.eqb_spec "default_factory" a); [congruence|].
  now rewrite !kw_get_set_other, kw_get_setdefault_other.
Qed.

Lemma subgroup_kwargs_metadata m d default key factory kw :
  kw_get "metadata"
    (("default_factory", factory) :: subgroup_kwargs m d default key kw) =
  Some (VDict (subgroup_metadata m d default key)).
Proof. unfold subgroup_kwargs. cbn [kw_get String.eqb]. apply kw_get_set_same. Qed.

Lemma subgroup_kwargs_ordinary m d default key factory kw :
  ordinary kw ->
  ordinary (("default_factory", factory) :: subgroup_kwargs m d default key kw).
Proof.
  intros (Hd & Hc & Ha). unfold ordinary, plain_action, kw_arg in *.
  rewrite !subgroup_kwargs_get by discriminate. auto.
Qed.

(** A successful selection, for ordinary keyword arguments: the field. *)
Lemma subgroups_selected m args default default_factory kw d key factory :
  forallb is_dataclass_type (dict_values m) = true ->
  ordinary kw -> kw_metadata kw = Some d ->
  subgroup_selection m default default_factory = ret (key, factory) ->
  subgroups m args default default_factory kw =
  ret (declared_field VMissing (subgroup_choices m args)
         (subgroup_metadata m d default key)
         (("default_factory", factory) :: subgroup_kwargs m d default key kw)).
Proof.
  intros Hdc Ho Hm Hsel.
  rewrite (subgroups_eq _ _ _ _ _ _ Hdc Hm), Hsel, bind_ret.
  rewrite choice_keys_view. apply call_field_ordinary.
  - now apply subgroup_kwargs_ordinary.
  - unfold kw_metadata. now rewrite subgroup_kwargs_metadata.
Qed.

Lemma subgroup_default_declared m d default key default' choices kw :
  metadata_get "subgroup_default"
    (declared_field default' choices (subgroup_metadata m d default key) kw) =
  Some key.
Proof.
  rewrite metadata_get_declared.
  - apply dict_find_set_same.
  - simpl. intuition discriminate.
Qed.

(** ** Enum classes: the field *)

Lemma choice_enum_dict_ordinary cls members default kw d :
  ordinary kw -> kw_metadata kw = Some d ->
  exists f,
    choice [VDict (enum_dict cls members)] default kw = (Ok f, []) /\
    canonical_choices f = Some (VList (map VStr members)) /\
    fld_default f = default.
Proof.
  intros Ho Hm. eexists.
  rewrite (choice_mapping_ordinary _ _ _ _ Ho Hm).
  split; [reflexivity|]. split; [|reflexivity].
  rewrite canonical_choices_declared. now rewrite enum_dict_keys.
Qed.

Lemma NoDup_ABC : NoDup ["A"; "B"; "C"].
Proof.
  repeat constructor; simpl; intros H;
    repeat (destruct H as [H|H]; [discriminate H|]); exact H.
Defined.

Lemma ordinary_nil : ordinary [].
Proof. repeat split. Defined.

(** ** Equality is reflexive *)

Lemma py_eq_tuple l1 l2 : py_eq (VTuple l1) (VTuple l2) = seq_eq l1 l2.
Proof. reflexivity. Qed.

Lemma py_eq_list l1 l2 : py_eq (VList l1) (VList l2) = seq_eq l1 l2.
Proof. reflexivity. Qed.

Lemma py_eq_dict d1 d2 :
  py_eq (VDict d1) (VDict d2) =
  Nat.eqb (length d1) (length d2) && items_in d1 d2.
Proof.
  simpl. f_equal. unfold items_in.
  induction d1 as [|[k v] r IH]; simpl; [reflexivity|]. now rewrite IH.
Qed.

Lemma py_eq_keys d1 d2 :
  py_eq (VDictKeys d1) (VDictKeys d2) =
  Nat.eqb (length d1) (length d2) && keys_in d1 d2.
Proof.
  simpl. f_equal. unfold keys_in.
  induction d1 as [|[k v] r IH]; simpl; [reflexivity|]. now rewrite IH.
Qed.

Lemma py_eq_encoding d1 d2 :
  py_eq (VEncodingFn d1) (VEncodingFn d2) =
  Nat.eqb (length d1) (length d2) && items_in d1 d2.
Proof.
  simpl. f_equal. unfold items_in.
  induction d1 as [|[k v] r IH]; simpl; [reflexivity|]. now rewrite IH.
Qed.

Lemma py_eq_decoding d1 d2 :
  py_eq (VDecodingFn d1) (VDecodingFn d2) =
  Nat.eqb (length d1) (length d2) && items_in d1 d2.
Proof.
  simpl. f_equal. unfold items_in.
  induction d1 as [|[k v] r IH]; simpl; [reflexivity|]. now rewrite IH.
Qed.

Lemma seq_eq_refl l :
  Forall (fun v => py_eq v v = true) l -> seq_eq l l = true.
Proof. induction 1 as [|x r Hx _ IH]; simpl; [reflexivity|]. now rewrite Hx. Qed.

Lemma items_in_refl d :
  Forall (fun kv => py_eq (fst kv) (fst kv) = true
                    /\ py_eq (snd kv) (snd kv) = true) d ->
  items_in d d = true.
Proof.
  intros H. unfold items_in. apply forallb_forall. intros kv Hin.
  apply existsb_exists. exists kv. split; [assumption|].
  rewrite Forall_forall in H. destruct (H kv Hin) as [-> ->]. reflexivity.
Qed.

Lemma keys_in_refl d :
  Forall (fun kv => py_eq (fst kv) (fst kv) = true
                    /\ py_eq (snd kv) (snd kv) = true) d ->
  keys_in d d = true.
Proof.
  intros H. unfold keys_in. apply forallb_forall. intros kv Hin.
  apply existsb_exists. exists kv. split; [assumption|].
  rewrite Forall_forall in H. now destruct (H kv Hin) as [-> _].
Qed.

Lemma class_kind_eqb_refl k : class_kind_eqb k k = true.
Proof.
  destruct k; simpl; auto. now destruct (list_eq_dec string_dec members members).
Qed.

(** Every object of the model equals itself. *)
Lemma py_eq_refl (v : value) : py_eq v v = true.
Proof.
  induction v using value_nested_ind;
    rewrite ?py_eq_tuple, ?py_eq_list, ?py_eq_dict, ?py_eq_keys,
      ?py_eq_encoding, ?py_eq_decoding, ?Nat.eqb_refl;
    auto using seq_eq_refl, items_in_refl, keys_in_refl.
  all: simpl;
    rewrite ?String.eqb_refl, ?class_kind_eqb_refl, ?Z.eqb_refl; auto.
  - now destruct b.
  - now apply items_in_refl.
  - now apply keys_in_refl.
  - now apply items_in_refl.
  - now apply items_in_refl.
Qed.

(** ** The functions stored for a mapping *)

Lemma metadata_get_declared_encoding_fn default choices d kw :
  is_None (kw_arg "encoding_fn" VNone kw) = false ->
  metadata_get "encoding_fn" (declared_field default choices d kw) =
  Some (kw_arg "encoding_fn" VNone kw).
Proof.
  intros H. unfold metadata_get, declared_field. cbn [fld_metadata].
  now apply field_metadata_encoding_fn.
Qed.

Lemma metadata_get_declared_decoding_fn default choices d kw :
  is_None (kw_arg "decoding_fn" VNone kw) = false ->
  metadata_get "decoding_fn" (declared_field default choices d kw) =
  Some (kw_arg "decoding_fn" VNone kw).
Proof.
  intros H. unfold metadata_get, declared_field. cbn [fld_metadata].
  now apply field_metadata_decoding_fn.
Qed.

Lemma field_metadata_encoding_fn_none d alias to_dict enc dec cmd positional
  custom :
  is_None enc = true ->
  dict_find (VStr "encoding_fn")
    (field_metadata d alias to_dict enc dec cmd positional custom) =
  dict_find (VStr "encoding_fn") d.
Proof.
  intros He. unfold field_metadata. rewrite He. cbn [negb].
  destruct custom; destruct (truthy alias), (negb (is_None dec));
    repeat (rewrite dict_find_set_other by discriminate);
    reflexivity.
Qed.

Lemma field_metadata_decoding_fn_none d alias to_dict enc dec cmd positional
  custom :
  is_None dec = true ->
  dict_find (VStr "decoding_fn")
    (field_metadata d alias to_dict enc dec cmd positional custom) =
  dict_find (VStr "decoding_fn") d.
Proof.
  intros He. unfold field_metadata. rewrite He. cbn [negb].
  destruct custom; destruct (truthy alias), (negb (is_None enc));
    repeat (rewrite dict_find_set_other by discriminate);
    reflexivity.
Qed.

Lemma mapping_kwargs_encoding_fn m d kw :
  kw_arg "encoding_fn" VNone (mapping_kwargs m d kw) =
  kw_arg "encoding_fn" (VEncodingFn m) kw.
Proof.
  unfold kw_arg, mapping_kwargs.
  rewrite kw_get_setdefault_other by discriminate.
  rewrite kw_get_setdefault_same, kw_get_set_other by discriminate.
  reflexivity.
Qed.

Lemma mapping_kwargs_decoding_fn m d kw :
  kw_arg "decoding_fn" VNone (mapping_kwargs m d kw) =
  kw_arg "decoding_fn" (VDecodingFn m) kw.
Proof.
  unfold kw_arg, mapping_kwargs.
  rewrite kw_get_setdefault_same, kw_get_setdefault_other by discriminate.
  rewrite kw_get_set_other by discriminate.
  reflexivity.
Qed.

(** ** [field] for any keyword arguments *)

Lemma plain_action_custom choices kw :
  plain_action
    (("choices", choices)
       :: filter (fun nv => negb (is_field_param (fst nv))) kw) =
  plain_action kw.
Proof.
  unfold plain_action, kw_arg. cbn [kw_get].
  change (("choices" =? "action")%string) with false. cbv iota.
  now rewrite kw_get_custom by reflexivity.
Qed.

(** The call of [field] on keyword arguments whose [metadata] is a dict. *)
Lemma call_field_dict default choices kw d :
  kw_get "metadata" kw = Some (VDict d) ->
  call_field default choices kw =
  if kw_mem "default" kw || kw_mem "choices" kw then
    raise TypeError "field() got multiple values for keyword argument"
  else
    (default' <-
       field_default default
         (("choices", choices)
            :: filter (fun nv => negb (is_field_param (fst nv))) kw) ;;
     ret (declared_field default' choices d kw)).
Proof.
  intros Hm. unfold call_field.
  destruct (kw_mem "default" kw || kw_mem "choices" kw); [reflexivity|].
  replace (kw_arg "metadata" VNone kw) with (VDict d)
    by (unfold kw_arg; now rewrite Hm).
  apply field_dict.
Qed.

(** ** What [subgroup_selection] selects *)

Lemma subgroup_selection_no_warning m default default_factory :
  snd (subgroup_selection m default default_factory) = [].
Proof.
  unfold subgroup_selection.
  destruct (negb (is_MISSING default_factory) && negb (is_MISSING default));
    [reflexivity|].
  destruct (negb (is_MISSING default)).
  - destruct (hashable default); [|reflexivity].
    now destruct (dict_find default m).
  - destruct (negb (is_MISSING default_factory)); [|reflexivity].
    destruct (negb (seq_contains _ _)); [reflexivity|].
    now destruct (matching_keys m default_factory) as [|k [|k' ks]].
Qed.

Lemma matching_keys_are_keys m default_factory k :
  In k (matching_keys m default_factory) -> In k (dict_keys m).
Proof.
  unfold matching_keys, dict_keys. intros H.
  assert (Hsub : forall p, In k (map fst (filter p m)) -> In k (map fst m)).
  { intros p Hk. apply in_map_iff in Hk as (kv & <- & Hkv).
    apply filter_In in Hkv as [Hkv _]. now apply in_map. }
  destruct (map fst (filter (fun kv => py_is (snd kv) default_factory) m)) eqn:E.
  - now apply Hsub in H.
  - rewrite <- E in H. now apply Hsub in H.
Qed.

Lemma subgroup_selection_inv m default default_factory key factory ws :
  subgroup_selection m default default_factory = (Ok (key, factory), ws) ->
  (is_MISSING default = false /\ key = default /\
   dict_find default m = Some factory /\ hashable default = true) \/
  (default = VMissing /\ is_MISSING default_factory = false /\
   In key (dict_keys m) /\ factory = default_factory) \/
  (default = VMissing /\ key = VMissing /\ factory = VMissing).
Proof.
  unfold subgroup_selection.
  destruct (is_MISSING default_factory) eqn:Ef;
    destruct (is_MISSING default) eqn:Ed; cbn [negb andb].
  - intros [= <- <- _]. right. right. now destruct default.
  - destruct (hashable default); [|discriminate].
    destruct (dict_find default m); [|discriminate].
    intros [= <- <- _]. left. auto.
  - destruct (negb (seq_contains _ _)); [discriminate|].
    destruct (matching_keys m default_factory) as [|k [|k' ks]] eqn:E;
      try discriminate.
    intros [= <- <- _]. right. left. destruct default; try discriminate.
    repeat split; auto. apply (matching_keys_are_keys m default_factory).
    rewrite E. now left.
  - discriminate.
Qed.

Lemma dict_find_is_key x v m : dict_find x m = Some v -> is_key_of x m.
Proof.
  intros H. apply dict_find_some in H as (pre & k & post & -> & Hk & _).
  exists (k, v). split; [|exact Hk]. apply in_or_app. right. now left.
Qed.

Lemma in_keys_is_key k m : In k (dict_keys m) -> is_key_of k m.
Proof.
  unfold dict_keys. intros H. apply in_map_iff in H as (kv & <- & Hin).
  exists kv. split; [assumption | apply py_eq_refl].
Qed.

(** An object that equals something other than a dataclass type is not a
    dataclass type. *)
Lemma py_eq_dataclass_type k x :
  py_eq k x = true -> is_dataclass_type k = false -> is_dataclass_type x = false.
Proof.
  destruct x; try reflexivity. destruct kind; try reflexivity.
  destruct k; simpl; try discriminate.
  destruct kind; simpl; try discriminate;
    rewrite andb_false_r; discriminate.
Qed.

(** ** Calls that differ only in the metadata dict *)

Lemma filter_custom_set n v kw :
  is_field_param n = true ->
  filter (fun nv => negb (is_field_param (fst nv))) (kw_set n v kw) =
  filter (fun nv => negb (is_field_param (fst nv))) kw.
Proof.
  intros Hn. induction kw as [|[a x] r IH]; simpl.
  - now rewrite Hn.
  - destruct (String.eqb_spec a n) as [->|Hne]; simpl.
    + now rewrite Hn.
    + now rewrite IH.
Qed.

Lemma filter_custom_setdefault n v kw :
  is_field_param n = true ->
  filter (fun nv => negb (is_field_param (fst nv))) (snd (kw_setdefault n v kw)) =
  filter (fun nv => negb (is_field_param (fst nv))) kw.
Proof.
  intros Hn. unfold kw_setdefault. destruct (kw_get n kw); simpl; auto.
  rewrite filter_app. simpl. rewrite Hn. simpl. apply app_nil_r.
Qed.

Lemma filter_custom_set_custom n v kw :
  is_field_param n = false ->
  filter (fun nv => negb (is_field_param (fst nv))) (kw_set n v kw) =
  kw_set n v (filter (fun nv => negb (is_field_param (fst nv))) kw).
Proof.
  intros Hn. induction kw as [|[a x] r IH]; simpl.
  - now rewrite Hn.
  - destruct (String.eqb_spec a n) as [->|Hne]; simpl.
    + rewrite Hn. simpl. now rewrite String.eqb_refl.
    + destruct (is_field_param a); simpl; auto.
      destruct (String.eqb_spec a n); [contradiction|]. now rewrite IH.
Qed.

Lemma kw_get_set a b v kw :
  kw_get a (kw_set b v kw) = if String.eqb b a then Some v else kw_get a kw.
Proof.
  destruct (String.eqb_spec b a) as [->|Hne].
  - apply kw_get_set_same.
  - apply kw_get_set_other. congruence.
Qed.

Lemma kw_get_setdefault a b v kw :
  kw_get a (snd (kw_setdefault b v kw)) =
  if String.eqb b a
  then Some (match kw_get b kw with Some w => w | None => v end)
  else kw_get a kw.
Proof.
  destruct (String.eqb_spec b a) as [->|Hne].
  - apply kw_get_setdefault_same.
  - apply kw_get_setdefault_other. congruence.
Qed.

Lemma same_but_metadata_refl kw : same_but_metadata kw kw.
Proof. split; auto. Qed.

Lemma same_but_metadata_set kw1 kw2 x y :
  same_but_metadata kw1 kw2 ->
  same_but_metadata (kw_set "metadata" x kw1) (kw_set "metadata" y kw2).
Proof.
  intros [Hg Hf]. split.
  - intros a Ha. rewrite !kw_get_set_other by assumption. now apply Hg.
  - now rewrite !filter_custom_set by reflexivity.
Qed.

Lemma same_but_metadata_setdefault n v kw1 kw2 :
  is_field_param n = true -> n <> "metadata" ->
  same_but_metadata kw1 kw2 ->
  same_but_metadata (snd (kw_setdefault n v kw1)) (snd (kw_setdefault n v kw2)).
Proof.
  intros Hn Hne [Hg Hf]. split.
  - intros a Ha. rewrite !kw_get_setdefault, (Hg n Hne), (Hg a Ha).
    reflexivity.
  - now rewrite !filter_custom_setdefault.
Qed.

Lemma same_but_metadata_set_custom n v kw1 kw2 :
  is_field_param n = false -> n <> "metadata" ->
  same_but_metadata kw1 kw2 ->
  same_but_metadata (kw_set n v kw1) (kw_set n v kw2).
Proof.
  intros Hn Hne [Hg Hf]. split.
  - intros a Ha. rewrite !kw_get_set, (Hg a Ha). reflexivity.
  - now rewrite !filter_custom_set_custom, Hf.
Qed.

Lemma same_but_metadata_cons n v kw1 kw2 :
  n <> "metadata" ->
  same_but_metadata kw1 kw2 ->
  same_but_metadata ((n, v) :: kw1) ((n, v) :: kw2).
Proof.
  intros Hne [Hg Hf]. split.
  - intros a Ha. simpl. now rewrite (Hg a Ha).
  - simpl. now rewrite Hf.
Qed.

(** Two calls of [field] whose keyword arguments agree on everything but the
    metadata dict: both raise the same exception, or both return, and the
    two fields differ only in the entries of the caller's dicts. *)
Lemma call_field_same_but_metadata default choices kw1 kw2 d1 d2 :
  kw_get "metadata" kw1 = Some (VDict d1) ->
  kw_get "metadata" kw2 = Some (VDict d2) ->
  same_but_metadata kw1 kw2 ->
  (exists e ws,
      call_field default choices kw1 = (Raised e, ws) /\
      call_field default choices kw2 = (Raised e, ws)) \/
  (exists default' ws,
      call_field default choices kw1 =
      (Ok (declared_field default' choices d1 kw1), ws) /\
      call_field default choices kw2 =
      (Ok (declared_field default' choices d2 kw2), ws)).
Proof.
  intros H1 H2 [Hg Hf].
  rewrite (call_field_dict default choices kw1 d1 H1),
    (call_field_dict default choices kw2 d2 H2).
  unfold kw_mem. rewrite <- !(Hg "default"), <- !(Hg "choices") by discriminate.
  rewrite <- Hf.
  destruct (_ || _); [left; do 2 eexists; split; reflexivity|].
  match goal with
  | |- context [field_default default ?c] =>
      destruct (field_default default c) as [[default'|e] ws]
  end; simpl.
  - right. exists default', (ws ++ []). split; reflexivity.
  - left. exists e, ws. split; reflexivity.
Qed.

Lemma declared_field_same_but_metadata default choices d1 d2 kw1 kw2 :
  same_but_metadata kw1 kw2 ->
  canonical_choices (declared_field default choices d1 kw1) =
  canonical_choices (declared_field default choices d2 kw2) /\
  fld_default (declared_field default choices d1 kw1) =
  fld_default (declared_field default choices d2 kw2) /\
  fld_default_factory (declared_field default choices d1 kw1) =
  fld_default_factory (declared_field default choices d2 kw2).
Proof.
  intros [Hg _]. rewrite !canonical_choices_declared.
  unfold declared_field, kw_arg. cbn [fld_default fld_default_factory].
  now rewrite (Hg "default_factory") by discriminate.
Qed.

Lemma call_field_resolution default choices kw1 kw2 d1 d2 :
  kw_get "metadata" kw1 = Some (VDict d1) ->
  kw_get "metadata" kw2 = Some (VDict d2) ->
  same_but_metadata kw1 kw2 ->
  resolution (call_field default choices kw1) =
  resolution (call_field default choices kw2).
Proof.
  intros H1 H2 Hs.
  destruct (call_field_same_but_metadata default choices _ _ _ _ H1 H2 Hs)
    as [(e & ws & -> & ->) | (default' & ws & -> & ->)]; [reflexivity|].
  unfold resolution. cbn [fst].
  destruct (declared_field_same_but_metadata default' choices d1 d2 _ _ Hs)
    as (-> & -> & ->).
  reflexivity.
Qed.

Lemma resolution_bind_ext {A} (m : M A) (k1 k2 : A -> M Field) :
  (forall a, resolution (k1 a) = resolution (k2 a)) ->
  resolution (bind m k1) = resolution (bind m k2).
Proof.
  intros H. destruct m as [[a|e] ws]; [|reflexivity].
  specialize (H a). unfold resolution, bind in *.
  destruct (k1 a), (k2 a). exact H.
Qed.

Lemma subgroup_resolution_bind_ext {A} (m : M A) (k1 k2 : A -> M Field) :
  (forall a, subgroup_resolution (k1 a) = subgroup_resolution (k2 a)) ->
  subgroup_resolution (bind m k1) = subgroup_resolution (bind m k2).
Proof.
  intros H. destruct m as [[a|e] ws]; [|reflexivity].
  specialize (H a). unfold subgroup_resolution, bind in *.
  destruct (k1 a), (k2 a). exact H.
Qed.

Lemma kw_setdefault_present n v0 v kw :
  kw_get n kw = Some v -> kw_setdefault n v0 kw = (v, kw).
Proof. intros H. unfold kw_setdefault. now rewrite H. Qed.

Lemma choice_resolution choices default kw1 kw2 d1 d2 :
  kw_get "metadata" kw1 = Some (VDict d1) ->
  kw_get "metadata" kw2 = Some (VDict d2) ->
  same_but_metadata kw1 kw2 ->
  resolution (choice choices default kw1) =
  resolution (choice choices default kw2).
Proof.
  intros H1 H2 Hs. unfold choice.
  apply resolution_bind_ext. intros _.
  destruct (length choices =? 1)%nat;
    [| now apply (call_field_resolution _ _ _ _ d1 d2)].
  apply resolution_bind_ext. intros [c d].
  destruct c; try now apply (call_field_resolution _ _ _ _ d1 d2).
  rewrite (kw_setdefault_present _ _ _ _ H1), (kw_setdefault_present _ _ _ _ H2).
  cbn [setitem]. rewrite !bind_ret.
  eapply call_field_resolution.
  - rewrite !kw_get_setdefault_other by discriminate. apply kw_get_set_same.
  - rewrite !kw_get_setdefault_other by discriminate. apply kw_get_set_same.
  - repeat apply same_but_metadata_setdefault;
      try reflexivity; try discriminate.
    now apply same_but_metadata_set.
Qed.

Lemma subgroups_resolution m args default default_factory kw md1 md2 :
  subgroup_resolution
    (subgroups m args default default_factory
       (kw_set "metadata" (VDict md1) kw)) =
  subgroup_resolution
    (subgroups m args default default_factory
       (kw_set "metadata" (VDict md2) kw)).
Proof.
  destruct (forallb is_dataclass_type (dict_values m)) eqn:Hdc;
    [| now rewrite !(subgroups_not_dataclasses _ _ _ _ _ Hdc)].
  assert (Hm : forall md,
             kw_metadata (kw_set "metadata" (VDict md) kw) = Some md).
  { intros md. unfold kw_metadata. now rewrite kw_get_set_same. }
  rewrite (subgroups_eq _ _ _ _ _ _ Hdc (Hm md1)),
    (subgroups_eq _ _ _ _ _ _ Hdc (Hm md2)).
  apply subgroup_resolution_bind_ext. intros [key factory].
  rewrite !choice_keys_view.
  assert (Hs : same_but_metadata
                 (("default_factory", factory)
                    :: subgroup_kwargs m md1 default key
                         (kw_set "metadata" (VDict md1) kw))
                 (("default_factory", factory)
                    :: subgroup_kwargs m md2 default key
                         (kw_set "metadata" (VDict md2) kw))).
  { apply same_but_metadata_cons; [discriminate|]. unfold subgroup_kwargs.
    apply same_but_metadata_set.
    apply same_but_metadata_set_custom; [reflexivity | discriminate |].
    rewrite !(kw_setdefault_present _ _ _ _ (kw_get_set_same _ _ _)).
    apply same_but_metadata_set, same_but_metadata_refl. }
  destruct (call_field_same_but_metadata VMissing (subgroup_choices m args)
              _ _ _ _
              (subgroup_kwargs_metadata m md1 default key factory _)
              (subgroup_kwargs_metadata m md2 default key factory _) Hs)
    as [(e & ws & -> & ->) | (default' & ws & -> & ->)]; [reflexivity|].
  unfold subgroup_resolution. cbn [fst].
  rewrite !subgroup_default_declared.
  destruct (declared_field_same_but_metadata default' (subgroup_choices m args)
              (subgroup_metadata m md1 default key)
              (subgroup_metadata m md2 default key) _ _ Hs)
    as (-> & -> & ->).
  reflexivity.
Qed.

Lemma twice_same (call : M Field) f1 f2 ws :
  twice call = (Ok (f1, f2), ws) -> f1 = f2.
Proof.
  unfold twice, bind, ret. destruct call as [[f|e] w]; simpl.
  - intros [= <- <- _]. reflexivity.
  - discriminate.
Qed.

(** * The claims *)

(** C1.  The claim: a plain sequence of choices with a default that is not
    among them is refused.  The code never compares the default with a plain
    sequence: for two or more positional choices, and for a single list of
    choices, [choice] returns a field whose default is the one given, whatever
    it is; so it does for the choices [a], [b] and the default [c], which is
    not among them. *)
Theorem choice_plain_default_not_checked :
  (forall c1 c2 rest default,
      exists f,
        choice (c1 :: c2 :: rest) default [] = (Ok f, []) /\
        fld_default f = default /\
        canonical_choices f = Some (VTuple (c1 :: c2 :: rest))) /\
  (forall items default,
      exists f,
        choice [VList items] default [] = (Ok f, []) /\
        fld_default f = default /\
        canonical_choices f = Some (VList items)) /\
  seq_contains (VStr "c") [VStr "a"; VStr "b"] = false /\
  choice [VStr "a"; VStr "b"] (VStr "c") [] =
  (Ok (mkField (VStr "c") VMissing (VBool true) (VBool true) VNone (VBool true)
         (VDict
            [(VStr "to_dict", VBool true); (VStr "cmd", VBool true);
             (VStr "positional", VBool false);
             (VStr "custom_args",
              VDict [(VStr "choices", VTuple [VStr "a"; VStr "b"])])])),
   []).
Proof.
  assert (Ho : ordinary []) by (repeat split).
  split; [|split; [|split]].
  - intros c1 c2 rest default.
    exists (declared_field default (VTuple (c1 :: c2 :: rest)) [] []).
    rewrite choice_many, (call_field_ordinary _ _ [] [] Ho eq_refl).
    split; [reflexivity | split; [reflexivity|]].
    apply canonical_choices_declared.
  - intros items default.
    exists (declared_field default (VList items) [] []).
    rewrite choice_single_plain by (reflexivity || discriminate).
    rewrite (call_field_ordinary _ _ [] [] Ho eq_refl).
    split; [reflexivity | split; [reflexivity|]].
    apply canonical_choices_declared.
  - reflexivity.
  - reflexivity.
Qed.

(** C2, as the code has it.  No positional choice at all fails the assertion
    of [choice], whatever the default and the keyword arguments.  The entries
    of a mapping are not counted: a single empty mapping given to [choice],
    and an empty mapping given to [subgroups] without a default, are accepted
    and yield empty canonical choices. *)
Theorem choice_requires_a_positional_argument :
  (forall default kw,
      choice [] default kw =
      raise AssertionError "Choice requires at least one positional argument!")
  /\
  (forall default,
      exists f,
        choice [VDict []] default [] = (Ok f, []) /\
        canonical_choices f = Some (VList [])) /\
  (exists f,
      subgroups [] [] VMissing VMissing [] = (Ok f, []) /\
      canonical_choices f = Some (VDictKeys [])).
Proof.
  assert (Ho : ordinary []) by (repeat split).
  split; [|split].
  - intros default kw. apply choice_none.
  - intros default. eexists.
    rewrite (choice_mapping_ordinary [] default [] [] Ho eq_refl).
    split; [reflexivity | apply canonical_choices_declared].
  - eexists. split; reflexivity.
Qed.

(** C2, the claim refuted: [choice] given a single empty mapping returns a
    field whose canonical choices are the empty list. *)
Lemma choice_empty_mapping_accepted :
  exists f,
    choice [VDict []] VMissing [] = (Ok f, []) /\
    canonical_choices f = Some (VList []).
Proof. eexists. split; reflexivity. Qed.

(** C3.  The claim has [_encoding_fn] return the first key whose value
    equals the argument, and [_decoding_fn] return unchanged an argument that
    is no key; the docstring of [choice] says that the values of the mapping
    may be objects, and that of [_encoding_fn] that it represents the value
    as its key.  The code tests first whether the argument is a key, and
    that test hashes it: for every mapping, an argument that cannot be hashed
    makes both functions raise [TypeError], and the search among the values
    is never reached.  These are the functions that [choice] stores for the
    mapping.  So it is for a list stored under the key [a]: the list is no
    key, it is found among the values, and [a] is the first key whose value
    equals it; [_encoding_fn] does not return [a], nor [_decoding_fn] the
    list. *)
Theorem encode_decode_hash_their_argument :
  (forall m x,
      hashable x = false ->
      _encoding_fn m x = raise TypeError "unhashable type" /\
      _decoding_fn m x = raise TypeError "unhashable type") /\
  (forall m,
      exists f,
        choice [VDict m] VMissing [] = (Ok f, []) /\
        metadata_get "encoding_fn" f = Some (VEncodingFn m) /\
        metadata_get "decoding_fn" f = Some (VDecodingFn m) /\
        forall x,
          call_closure (VEncodingFn m) x = Some (_encoding_fn m x) /\
          call_closure (VDecodingFn m) x = Some (_decoding_fn m x)) /\
  py_eq (VStr "a") (VList [VInt 1; VInt 2]) = false /\
  seq_contains (VList [VInt 1; VInt 2])
    (dict_values [(VStr "a", VList [VInt 1; VInt 2])]) = true /\
  map fst
    (filter (fun kv => py_eq (snd kv) (VList [VInt 1; VInt 2]))
       [(VStr "a", VList [VInt 1; VInt 2])]) = [VStr "a"] /\
  _encoding_fn [(VStr "a", VList [VInt 1; VInt 2])] (VList [VInt 1; VInt 2])
  = raise TypeError "unhashable type" /\
  _decoding_fn [(VStr "a", VList [VInt 1; VInt 2])] (VList [VInt 1; VInt 2])
  = raise TypeError "unhashable type".
Proof.
  split; [| split; [| repeat split]].
  - intros m x Hx.
    unfold _encoding_fn, _decoding_fn, dict_contains, dict_get.
    rewrite Hx. split; reflexivity.
  - intros m. eexists. split; [reflexivity|].
    split; [reflexivity|]. split; [reflexivity|].
    intros x. split; reflexivity.
Qed.

(** C4.  [subgroups] given both a default and a default factory raises a
    [ValueError], whether or not the default is a key and the factory a
    value: for a mapping whose values are all dataclass types, the one that
    says that both were passed; for any other mapping, the one that refuses
    its values, which is checked first.  (The keyword arguments are any whose
    [metadata] is absent or a dict.) *)
Theorem subgroups_both_defaults :
  forall m args default default_factory kw d,
    kw_metadata kw = Some d ->
    is_MISSING default = false ->
    is_MISSING default_factory = false ->
    subgroups m args default default_factory kw =
    raise ValueError
      (if forallb is_dataclass_type (dict_values m)
       then "Can't pass both default and default_factory!"
       else "All values in the subgroups dict need to be dataclasses!").
Proof.
  intros m args default default_factory kw d Hm Hd Hf.
  destruct (forallb is_dataclass_type (dict_values m)) eqn:Hdc.
  - rewrite (subgroups_eq _ _ _ _ _ _ Hdc Hm). unfold subgroup_selection.
    now rewrite Hd, Hf.
  - now apply subgroups_not_dataclasses.
Qed.

(** The example of the spec: keys [a] and [b], default [a], factory [TypeB]. *)
Lemma subgroups_both_defaults_witness :
  subgroups [(VStr "a", TypeA); (VStr "b", TypeB)] [] (VStr "a") TypeB [] =
  raise ValueError "Can't pass both default and default_factory!".
Proof.
  apply (subgroups_both_defaults
           [(VStr "a", TypeA); (VStr "b", TypeB)] [] (VStr "a") TypeB [] []);
    reflexivity.
Defined.

(** C5.  For a mapping whose values are all dataclass types, no default and
    a default factory: when no value of the mapping equals the factory,
    [subgroups] raises a [ValueError]; when the values of two or more keys
    equal it, [subgroups] raises the [ValueError] of an ambiguous default;
    when the value of exactly one key equals it, [subgroups] returns a field
    (for ordinary keyword arguments) whose [subgroup_default] is that key and
    whose default factory is the factory.  The code looks for the values
    that are the factory before those that equal it; for dataclass types the
    two searches find the same keys ([matching_keys_dataclasses]). *)
Theorem subgroups_default_factory :
  forall m args default_factory kw d,
    forallb is_dataclass_type (dict_values m) = true ->
    kw_metadata kw = Some d ->
    is_MISSING default_factory = false ->
    ((forall kv, In kv m -> py_eq (snd kv) default_factory = false) ->
     subgroups m args VMissing default_factory kw =
     raise ValueError "default_factory must be a value in the subgroups dict!")
    /\
    ((2 <= length (filter (fun kv => py_eq (snd kv) default_factory) m))%nat ->
     subgroups m args VMissing default_factory kw =
     raise ValueError
       "Default subgroup {default} is found more than once in the subgroups dict?")
    /\
    (forall k v,
        filter (fun kv => py_eq (snd kv) default_factory) m = [(k, v)] ->
        ordinary kw ->
        exists f,
          subgroups m args VMissing default_factory kw = (Ok f, []) /\
          metadata_get "subgroup_default" f = Some k /\
          fld_default f = VMissing /\
          fld_default_factory f = default_factory /\
          canonical_choices f = Some (subgroup_choices m args)).
Proof.
  intros m args default_factory kw d Hdc Hm Hf.
  assert (Hsel : subgroup_selection m VMissing default_factory =
                 if negb (seq_contains default_factory (dict_values m)) then
                   raise ValueError
                     "default_factory must be a value in the subgroups dict!"
                 else
                   match map fst (filter (fun kv => py_eq (snd kv) default_factory) m) with
                   | [] => raise AssertionError ""
                   | [k] => ret (k, default_factory)
                   | _ :: _ :: _ =>
                       raise ValueError
                         "Default subgroup {default} is found more than once in the subgroups dict?"
                   end).
  { unfold subgroup_selection. rewrite Hf. cbn [is_MISSING negb andb].
    now rewrite (matching_keys_dataclasses _ _ Hdc). }
  assert (Hin : forall kv,
             In kv (filter (fun kv => py_eq (snd kv) default_factory) m) ->
             seq_contains default_factory (dict_values m) = true).
  { intros kv Hkv. apply filter_In in Hkv as [Hkv Heq].
    unfold seq_contains. apply existsb_exists. exists (snd kv). split.
    - unfold dict_values. now apply in_map.
    - rewrite Heq. apply orb_true_r. }
  split; [|split].
  - intros Hnone. rewrite (subgroups_eq _ _ _ _ _ _ Hdc Hm), Hsel.
    assert (Hc : seq_contains default_factory (dict_values m) = false).
    { apply seq_contains_false. intros v Hv. unfold dict_values in Hv.
      apply in_map_iff in Hv as (kv & <- & Hkv). now apply Hnone. }
    now rewrite Hc.
  - intros Hlen. rewrite (subgroups_eq _ _ _ _ _ _ Hdc Hm), Hsel.
    destruct (filter _ m) as [|kv1 [|kv2 r]] eqn:E; simpl in Hlen; try lia.
    rewrite (Hin kv1) by now left. reflexivity.
  - intros k v Hone Ho.
    assert (Hs : subgroup_selection m VMissing default_factory =
                 ret (k, default_factory)).
    { rewrite Hsel, (Hin (k, v)) by (rewrite Hone; now left).
      now rewrite Hone. }
    rewrite (subgroups_selected _ _ _ _ _ _ _ _ Hdc Ho Hm Hs).
    eexists. split; [reflexivity|].
    split; [apply subgroup_default_declared|].
    split; [reflexivity|]. split; [reflexivity|].
    apply canonical_choices_declared.
Qed.

(** The example of the spec, [TypeA] under the two keys [a] and [b] and
    [TypeA] as the default factory, is refused; with [TypeB] under the key
    [b] and [TypeB] as the default factory, the stored default key is [b]. *)
Lemma subgroups_default_factory_witness :
  subgroups [(VStr "a", TypeA); (VStr "b", TypeA)] [] VMissing TypeA [] =
  raise ValueError
    "Default subgroup {default} is found more than once in the subgroups dict?"
  /\
  exists f,
    subgroups [(VStr "a", TypeA); (VStr "b", TypeB)] [] VMissing TypeB [] =
    (Ok f, []) /\
    metadata_get "subgroup_default" f = Some (VStr "b") /\
    fld_default_factory f = TypeB.
Proof.
  split.
  - destruct (subgroups_default_factory
                [(VStr "a", TypeA); (VStr "b", TypeA)] [] TypeA [] []
                eq_refl eq_refl eq_refl) as (_ & H & _).
    apply H. simpl. lia.
  - destruct (subgroups_default_factory
                [(VStr "a", TypeA); (VStr "b", TypeB)] [] TypeB [] []
                eq_refl eq_refl eq_refl) as (_ & _ & H).
    destruct (H (VStr "b") TypeB eq_refl ordinary_nil)
      as (f & Hf & Hk & _ & Hdf & _).
    exists f. auto.
Defined.

(** C6.  For an enum class (its member names distinct, as Python makes
    them) and a default that is absent or a member of the class, [choice]
    returns a field whose canonical choices are the member names in
    definition order and whose default is the one given, and it emits no
    warning.  (The keyword arguments are ordinary ones whose [metadata] is
    absent or a dict.) *)
Theorem choice_enum_member_default :
  forall cls members default kw d,
    NoDup members ->
    ordinary kw -> kw_metadata kw = Some d ->
    is_MISSING default = true \/ isinstance_enum default cls = true ->
    exists f,
      choice [VClass cls (EnumClass members)] default kw = (Ok f, []) /\
      canonical_choices f = Some (VList (map VStr members)) /\
      fld_default f = default.
Proof.
  intros cls members default kw d Hnd Ho Hm Hdef.
  rewrite (choice_enum_keep _ _ _ _ Hnd Hdef).
  now apply (choice_enum_dict_ordinary cls members default kw d).
Qed.

(** The example of the spec: members [A], [B], [C] and the member [B] as
    default. *)
Lemma choice_enum_member_default_witness :
  exists f,
    choice [Color] (VEnumMember "Color" "B") [] = (Ok f, []) /\
    canonical_choices f = Some (VList [VStr "A"; VStr "B"; VStr "C"]) /\
    fld_default f = VEnumMember "Color" "B".
Proof.
  apply (choice_enum_member_default "Color" ["A"; "B"; "C"]
           (VEnumMember "Color" "B") [] [] NoDup_ABC ordinary_nil eq_refl).
  right. reflexivity.
Defined.

(** C7.  For an enum class and a default that is given and is not a member
    of the class: when the default is the name of a member, [choice] returns
    a field whose default is that member and emits exactly one warning;
    otherwise it raises and returns no field: the [ValueError] of an invalid
    default, or, for a default that cannot be hashed, the [TypeError] of the
    lookup among the names. *)
Theorem choice_enum_other_default :
  forall cls members default kw d,
    NoDup members ->
    ordinary kw -> kw_metadata kw = Some d ->
    is_MISSING default = false ->
    isinstance_enum default cls = false ->
    (forall n,
        In n members -> default = VStr n ->
        exists f,
          choice [VClass cls (EnumClass members)] default kw =
          (Ok f, [UserWarning default (VEnumMember cls n)]) /\
          fld_default f = VEnumMember cls n /\
          canonical_choices f = Some (VList (map VStr members))) /\
    ((forall n, In n members -> default <> VStr n) ->
     choice [VClass cls (EnumClass members)] default kw =
     (Raised
        (if hashable default
         then Exn ValueError
                "'default' arg should be of type {choice_enum}, but got {default}"
         else Exn TypeError "unhashable type"),
      [])).
Proof.
  intros cls members default kw d Hnd Ho Hm Hd Hi. split.
  - intros n Hn ->. rewrite (choice_enum_name _ _ _ _ Hnd Hn), bind_warn.
    destruct (choice_enum_dict_ordinary cls members (VEnumMember cls n) kw d
                Ho Hm) as (f & -> & Hc & Hdf).
    exists f. auto.
  - intros Hn. rewrite (choice_enum_invalid _ _ _ _ Hnd Hd Hi Hn).
    now destruct (hashable default).
Qed.

(** The example of the spec: members [A], [B], [C] and the name [B] as
    default. *)
Lemma choice_enum_other_default_witness :
  exists f,
    choice [Color] (VStr "B") [] =
    (Ok f, [UserWarning (VStr "B") (VEnumMember "Color" "B")]) /\
    fld_default f = VEnumMember "Color" "B" /\
    canonical_choices f = Some (VList [VStr "A"; VStr "B"; VStr "C"]).
Proof.
  destruct (choice_enum_other_default "Color" ["A"; "B"; "C"] (VStr "B") [] []
              NoDup_ABC ordinary_nil eq_refl eq_refl eq_refl) as [H _].
  apply (H "B"); [simpl; auto | reflexivity].
Defined.

(** C8.  Two calls in a row of [choice], or of [subgroups], on the same
    arguments return the same field.  More than that, what a call resolves
    (the canonical choices in their order, the default, the default factory,
    for [subgroups] the stored default key, or the exception raised) does
    not depend on what the metadata dict of the caller holds, the one object
    that a call writes to: two calls that differ only in the contents of
    that dict resolve alike, and so does a second call given the dict that
    the first one has written to. *)
Theorem resolution_deterministic :
  (forall choices default kw f1 f2 ws,
      twice (choice choices default kw) = (Ok (f1, f2), ws) -> f1 = f2) /\
  (forall m args default default_factory kw f1 f2 ws,
      twice (subgroups m args default default_factory kw) = (Ok (f1, f2), ws) ->
      f1 = f2) /\
  (forall choices default kw md1 md2,
      resolution (choice choices default (kw_set "metadata" (VDict md1) kw)) =
      resolution (choice choices default (kw_set "metadata" (VDict md2) kw)))
  /\
  (forall m args default default_factory kw md1 md2,
      subgroup_resolution
        (subgroups m args default default_factory
           (kw_set "metadata" (VDict md1) kw)) =
      subgroup_resolution
        (subgroups m args default default_factory
           (kw_set "metadata" (VDict md2) kw))).
Proof.
  split; [|split; [|split]].
  - intros choices default kw f1 f2 ws. apply twice_same.
  - intros m args default default_factory kw f1 f2 ws. apply twice_same.
  - intros choices default kw md1 md2.
    apply (choice_resolution _ _ _ _ md1 md2).
    + apply kw_get_set_same.
    + apply kw_get_set_same.
    + apply same_but_metadata_set, same_but_metadata_refl.
  - intros. apply subgroups_resolution.
Qed.

(** C9.  Every field that [subgroups] returns has, under [subgroup_default]
    in its metadata, either [MISSING] or an object that is a key of the
    mapping (hence no dataclass type, when no key is one), and has no default
    together with a default factory.  When a default key was given, it is the
    stored [subgroup_default], and the call that ends [subgroups] is [choice]
    with [default=MISSING] and [default_factory] the value of the mapping at
    that key; without a [store_true] or [store_false] action these are the
    default and the default factory of the field. *)
Theorem subgroups_field_invariant :
  forall m args default default_factory kw f ws,
    subgroups m args default default_factory kw = (Ok f, ws) ->
    exists key,
      metadata_get "subgroup_default" f = Some key /\
      (key = VMissing \/ is_key_of key m) /\
      ((forall kv, In kv m -> is_dataclass_type (fst kv) = false) ->
       is_dataclass_type key = false) /\
      (fld_default f = VMissing \/ fld_default_factory f = VMissing) /\
      (is_MISSING default = false ->
       key = default /\
       exists v d,
         dict_find default m = Some v /\
         kw_metadata kw = Some d /\
         subgroups m args default default_factory kw =
         choice (VDictKeys m :: args) VMissing
           (("default_factory", v) :: subgroup_kwargs m d default default kw) /\
         (plain_action kw = true ->
          fld_default f = VMissing /\ fld_default_factory f = v)).
Proof.
  intros m args default default_factory kw f ws H.
  destruct (forallb is_dataclass_type (dict_values m)) eqn:Hdc;
    [| rewrite (subgroups_not_dataclasses _ _ _ _ _ Hdc) in H; discriminate].
  destruct (kw_metadata kw) as [d|] eqn:Hm;
    [| rewrite (subgroups_bad_metadata _ _ _ _ _ Hdc Hm) in H; discriminate].
  pose proof (subgroups_eq m args default default_factory kw d Hdc Hm) as Heq.
  pose proof (subgroup_selection_no_warning m default default_factory) as Hws.
  destruct (subgroup_selection m default default_factory)
    as [[[key factory]|e] ws0] eqn:Hsel;
    [| rewrite Heq in H; discriminate].
  simpl in Hws. subst ws0.
  change (Ok (key, factory), []) with (ret (key, factory)) in Heq.
  rewrite bind_ret in Heq. rewrite Heq in H.
  rewrite choice_keys_view in H.
  rewrite (call_field_dict _ _ _ _
             (subgroup_kwargs_metadata m d default key factory kw)) in H.
  destruct (kw_mem "default" _ || kw_mem "choices" _); [discriminate|].
  pose proof (field_default_plain VMissing
                (("choices", subgroup_choices m args)
                   :: filter (fun nv => negb (is_field_param (fst nv)))
                        (("default_factory", factory)
                           :: subgroup_kwargs m d default key kw))) as Hplain.
  rewrite plain_action_custom in Hplain.
  assert (Hact : plain_action
                   (("default_factory", factory)
                      :: subgroup_kwargs m d default key kw) =
                 plain_action kw).
  { unfold plain_action, kw_arg.
    now rewrite !subgroup_kwargs_get by discriminate. }
  rewrite Hact in Hplain.
  destruct (field_default VMissing _) as [[default'|e] ws1] eqn:Hfd;
    [| discriminate].
  simpl in H. injection H as <- _.
  apply subgroup_selection_inv in Hsel.
  exists key. split; [apply subgroup_default_declared|].
  split; [|split; [|split]].
  - destruct Hsel as [(_ & -> & Hfind & _) | [(_ & _ & Hin & _) | (_ & -> & _)]].
    + right. now apply dict_find_is_key in Hfind.
    + right. now apply in_keys_is_key.
    + now left.
  - intros Hkeys.
    assert (Hk : key = VMissing \/ is_key_of key m).
    { destruct Hsel as [(_ & -> & Hfind & _) | [(_ & _ & Hin & _) | (_ & -> & _)]].
      - right. now apply dict_find_is_key in Hfind.
      - right. now apply in_keys_is_key.
      - now left. }
    destruct Hk as [-> | (kv & Hin & Hkv)]; [reflexivity|].
    apply (py_eq_dataclass_type _ _ Hkv). now apply Hkeys.
  - unfold declared_field. cbn [fld_default fld_default_factory].
    destruct default'; cbn [is_MISSING]; auto.
  - intros Hd.
    destruct Hsel as [(_ & -> & Hfind & _) | [(-> & _) | (-> & _)]];
      try discriminate Hd.
    split; [reflexivity|]. exists factory, d.
    split; [exact Hfind|]. split; [reflexivity|]. split; [exact Heq|].
    intros Hp. specialize (Hplain Hp). injection Hplain as ->.
    split; reflexivity.
Qed.

(** The mapping of the spec with the default key [a]: the field has no
    default, the factory [TypeA], and [a] as its [subgroup_default]. *)
Lemma subgroups_field_invariant_witness :
  exists f,
    subgroups [(VStr "a", TypeA); (VStr "b", TypeB)] [] (VStr "a") VMissing []
    = (Ok f, []) /\
    metadata_get "subgroup_default" f = Some (VStr "a") /\
    fld_default f = VMissing /\ fld_default_factory f = TypeA.
Proof.
  eexists. split; [reflexivity|].
  destruct (subgroups_field_invariant
              [(VStr "a", TypeA); (VStr "b", TypeB)] [] (VStr "a") VMissing []
              _ [] eq_refl)
    as (key & Hkey & _ & _ & _ & Hdef).
  destruct (Hdef eq_refl) as (-> & v & d & Hv & _ & _ & Hp).
  injection Hv as <-.
  split; [exact Hkey|]. now apply Hp.
Defined.

(** C10.  For a mapping [m] and ordinary keyword arguments whose [metadata]
    is absent or a dict, [choice] returns a field in whose metadata
    [encoding_fn] is the caller's function when the caller gave one, and the
    closure [_encoding_fn] over [m] when the caller gave no [encoding_fn]
    keyword; a caller who gave [encoding_fn=None] finds the entry of the
    metadata dict as it was, the closure is not stored.  Likewise for
    [decoding_fn]. *)
Theorem choice_mapping_keeps_caller_functions :
  forall m default kw d,
    ordinary kw -> kw_metadata kw = Some d ->
    exists f,
      choice [VDict m] default kw = (Ok f, []) /\
      (forall g, kw_get "encoding_fn" kw = Some g -> is_None g = false ->
                 metadata_get "encoding_fn" f = Some g) /\
      (kw_get "encoding_fn" kw = Some VNone ->
       metadata_get "encoding_fn" f = dict_find (VStr "encoding_fn") d) /\
      (kw_get "encoding_fn" kw = None ->
       metadata_get "encoding_fn" f = Some (VEncodingFn m)) /\
      (forall g, kw_get "decoding_fn" kw = Some g -> is_None g = false ->
                 metadata_get "decoding_fn" f = Some g) /\
      (kw_get "decoding_fn" kw = Some VNone ->
       metadata_get "decoding_fn" f = dict_find (VStr "decoding_fn") d) /\
      (kw_get "decoding_fn" kw = None ->
       metadata_get "decoding_fn" f = Some (VDecodingFn m)).
Proof.
  intros m default kw d Ho Hm. eexists.
  rewrite (choice_mapping_ordinary _ _ _ _ Ho Hm).
  split; [reflexivity|].
  repeat match goal with |- _ /\ _ => split end.
  - intros g Hg Hn. rewrite metadata_get_declared_encoding_fn;
      rewrite mapping_kwargs_encoding_fn; unfold kw_arg; now rewrite Hg.
  - intros Hg. unfold metadata_get, declared_field. cbn [fld_metadata].
    rewrite field_metadata_encoding_fn_none.
    + now apply dict_find_set_other.
    + rewrite mapping_kwargs_encoding_fn. unfold kw_arg. now rewrite Hg.
  - intros Hg. rewrite metadata_get_declared_encoding_fn;
      rewrite mapping_kwargs_encoding_fn; unfold kw_arg; now rewrite Hg.
  - intros g Hg Hn. rewrite metadata_get_declared_decoding_fn;
      rewrite mapping_kwargs_decoding_fn; unfold kw_arg; now rewrite Hg.
  - intros Hg. unfold metadata_get, declared_field. cbn [fld_metadata].
    rewrite field_metadata_decoding_fn_none.
    + now apply dict_find_set_other.
    + rewrite mapping_kwargs_decoding_fn. unfold kw_arg. now rewrite Hg.
  - intros Hg. rewrite metadata_get_declared_decoding_fn;
      rewrite mapping_kwargs_decoding_fn; unfold kw_arg; now rewrite Hg.
Qed.

(** A caller's own encoding function next to the mapping of the spec: it is
    the one stored, and the decoding function is the closure over the
    mapping. *)
Lemma choice_mapping_keeps_caller_functions_witness :
  exists f,
    choice [VDict sizes] VMissing [("encoding_fn", VFunction "my_encode")] =
    (Ok f, []) /\
    metadata_get "encoding_fn" f = Some (VFunction "my_encode") /\
    metadata_get "decoding_fn" f = Some (VDecodingFn sizes).
Proof.
  destruct (choice_mapping_keeps_caller_functions sizes VMissing
              [("encoding_fn", VFunction "my_encode")] [])
    as (f & Hf & He & _ & _ & _ & _ & Hd).
  - repeat split.
  - reflexivity.
  - exists f. split; [exact Hf|]. split.
    + now apply He.
    + now apply Hd.
Defined.

(** * Further properties of the code *)

(** ** [field]: every way it ends *)

Lemma field_default_cases default custom :
  field_default default custom = ret default \/
  (exists b, field_default default custom = ret (VBool b)) \/
  (exists msg, field_default default custom = raise RuntimeError msg) \/
  field_default default custom = raise TypeError "unhashable type".
Proof.
  unfold field_default, set_contains. destruct custom; [now left|].
  destruct (py_eq _ (VStr "store_false"));
    [| destruct (py_eq _ (VStr "store_true")); [| now left]];
    (destruct (hashable default); [| now (right; right; right)]);
    rewrite bind_ret;
    match goal with |- context [negb ?b] => destruct b end; cbn [negb];
    eauto.
Qed.

Lemma setitem_not_dict md key v :
  (forall d, md <> VDict d) ->
  setitem md key v = raise TypeError "object does not support item assignment".
Proof. intros Hd. destruct md; try reflexivity. exfalso. now apply (Hd items). Qed.

Lemma update1_not_dict md key v :
  (forall d, md <> VDict d) ->
  update1 md key v =
  if py_is md dict_type then ret md
  else if py_is md set_type then
    raise TypeError
      "descriptor 'update' for 'set' objects doesn't apply to a 'dict' object"
  else raise AttributeError "object has no attribute 'update'".
Proof. intros Hd. destruct md; try reflexivity. exfalso. now apply (Hd items). Qed.

(** A metadata argument that is neither [None] nor a dict: the first write
    that the object does not support fails.  The class [dict] accepts the
    calls of [update] and fails the assignment of [cmd]. *)
Lemma field_bad_metadata default alias cmd positional to_dict encoding_fn
  decoding_fn default_factory init repr hash compare md custom :
  is_None md = false -> (forall d, md <> VDict d) ->
  field default alias cmd positional to_dict encoding_fn decoding_fn
    default_factory init repr hash compare md custom =
  if truthy alias || py_is md dict_type then
    raise TypeError "object does not support item assignment"
  else if py_is md set_type then
    raise TypeError
      "descriptor 'update' for 'set' objects doesn't apply to a 'dict' object"
  else raise AttributeError "object has no attribute 'update'".
Proof.
  intros Hn Hd. unfold field. rewrite Hn. cbn [negb].
  rewrite !(setitem_not_dict md) by assumption.
  destruct (truthy alias); [reflexivity|]. rewrite bind_ret. cbn [orb].
  rewrite !(update1_not_dict md) by assumption.
  destruct (py_is md dict_type) eqn:Hdict.
  - rewrite bind_ret.
    destruct (is_None encoding_fn), (is_None decoding_fn); cbn [negb];
      repeat first
        [ rewrite bind_ret
        | rewrite (update1_not_dict md) by assumption; rewrite Hdict
        | rewrite (setitem_not_dict md) by assumption ];
      reflexivity.
  - destruct (py_is md set_type); reflexivity.
Qed.

(** The outcome of [field], for any metadata argument: an exception that is
    no [ValueError], or the field built from the settled default. *)
Lemma field_outcome default alias cmd positional to_dict encoding_fn
  decoding_fn default_factory init repr hash compare md custom :
  (exists c msg,
      c <> ValueError /\
      field default alias cmd positional to_dict encoding_fn decoding_fn
        default_factory init repr hash compare md custom = raise c msg) \/
  (exists default' d,
      (md = VDict d \/ (md = VNone /\ d = [])) /\
      (default' = default \/ exists b, default' = VBool b) /\
      field_default default custom = ret default' /\
      field default alias cmd positional to_dict encoding_fn decoding_fn
        default_factory init repr hash compare md custom =
      ret (mkField default'
             (if is_MISSING default' then default_factory else VMissing)
             init repr hash compare
             (VDict (field_metadata d alias to_dict encoding_fn decoding_fn
                       cmd positional custom)))).
Proof.
  assert (Hdict : forall d,
             (exists c msg,
                 c <> ValueError /\
                 field default alias cmd positional to_dict encoding_fn
                   decoding_fn default_factory init repr hash compare
                   (VDict d) custom = raise c msg) \/
             (exists default',
                 (default' = default \/ exists b, default' = VBool b) /\
                 field_default default custom = ret default' /\
                 field default alias cmd positional to_dict encoding_fn
                   decoding_fn default_factory init repr hash compare
                   (VDict d) custom =
                 ret (mkField default'
                        (if is_MISSING default' then default_factory
                         else VMissing)
                        init repr hash compare
                        (VDict (field_metadata d alias to_dict encoding_fn
                                  decoding_fn cmd positional custom))))).
  { intros d. rewrite field_dict.
    destruct (field_default_cases default custom)
      as [E | [(b & E) | [(msg & E) | E]]]; rewrite E.
    - right. exists default. rewrite bind_ret. auto.
    - right. exists (VBool b). rewrite bind_ret. eauto.
    - left. exists RuntimeError, msg. split; [discriminate | reflexivity].
    - left. exists TypeError, "unhashable type".
      split; [discriminate | reflexivity]. }
  destruct (is_None md) eqn:Hn.
  - destruct md; try discriminate Hn. rewrite field_none.
    destruct (Hdict []) as [H | (default' & H1 & H2 & H3)]; [now left|].
    right. exists default', []. auto.
  - assert (Hcase : (exists d, md = VDict d) \/ (forall d, md <> VDict d)).
    { destruct md; try (right; discriminate). left. eauto. }
    destruct Hcase as [(d & ->) | Hd].
    + destruct (Hdict d) as [H | (default' & H1 & H2 & H3)]; [now left|].
      right. exists default', d. auto.
    + left. rewrite (field_bad_metadata _ _ _ _ _ _ _ _ _ _ _ _ _ _ Hn Hd).
      destruct (truthy alias || py_is md dict_type);
        [| destruct (py_is md set_type)];
        eexists; eexists; (split; [| reflexivity]); discriminate.
Qed.

Lemma dict_find_set (a b : string) (v : value) (d : dict) :
  dict_find (VStr a) (dict_set (VStr b) v d) =
  if String.eqb b a then Some v else dict_find (VStr a) d.
Proof.
  destruct (String.eqb_spec b a) as [->|Hne].
  - apply dict_find_set_same.
  - apply dict_find_set_other. congruence.
Qed.

(** Any entry of the metadata after [field] has written to it: the last
    write under that name, else the entry of the caller's dict. *)
Lemma field_metadata_find k d alias to_dict enc dec cmd positional custom :
  dict_find (VStr k)
    (field_metadata d alias to_dict enc dec cmd positional custom) =
  if String.eqb "custom_args" k && negb (Nat.eqb (length custom) 0) then
    Some (VDict (dict_of_kwargs custom))
  else if String.eqb "positional" k then Some positional
  else if String.eqb "cmd" k then Some cmd
  else if String.eqb "decoding_fn" k && negb (is_None dec) then Some dec
  else if String.eqb "encoding_fn" k && negb (is_None enc) then Some enc
  else if String.eqb "to_dict" k then Some to_dict
  else if String.eqb "alias" k && truthy alias then
    Some (match alias with VList _ => alias | _ => VList [alias] end)
  else dict_find (VStr k) d.
Proof.
  unfold field_metadata.
  destruct custom as [|c custom]; cbn [length Nat.eqb negb];
    rewrite ?andb_false_r, ?andb_true_r;
    destruct (truthy alias), (is_None enc), (is_None dec); cbn [negb];
    rewrite ?andb_false_r, ?andb_true_r, ?dict_find_set;
    repeat match goal with
           | |- context [String.eqb ?a k] => destruct (String.eqb a k)
           end;
    reflexivity.
Qed.

(** X1.  The metadata of every field that [field] returns for a metadata
    dict [d]: [to_dict], [cmd] and [positional] are the arguments given; a
    truthy [alias] is stored as a list (a single alias as the list of that
    one alias) and a falsy one ([None], the empty string, the empty list) is
    not stored; an encoding or decoding function is stored unless it is
    [None]; the custom arguments are stored unless there are none; under
    every other name the caller's entry is kept. *)
Theorem field_metadata_contract :
  forall default alias cmd positional to_dict encoding_fn decoding_fn
         default_factory init repr hash compare d custom f ws,
    field default alias cmd positional to_dict encoding_fn decoding_fn
      default_factory init repr hash compare (VDict d) custom = (Ok f, ws) ->
    metadata_get "to_dict" f = Some to_dict /\
    metadata_get "cmd" f = Some cmd /\
    metadata_get "positional" f = Some positional /\
    metadata_get "alias" f =
      (if truthy alias
       then Some (match alias with VList _ => alias | _ => VList [alias] end)
       else dict_find (VStr "alias") d) /\
    metadata_get "encoding_fn" f =
      (if is_None encoding_fn then dict_find (VStr "encoding_fn") d
       else Some encoding_fn) /\
    metadata_get "decoding_fn" f =
      (if is_None decoding_fn then dict_find (VStr "decoding_fn") d
       else Some decoding_fn) /\
    metadata_get "custom_args" f =
      (match custom with
       | [] => dict_find (VStr "custom_args") d
       | _ :: _ => Some (VDict (dict_of_kwargs custom))
       end) /\
    (forall k,
        ~ In k ["alias"; "to_dict"; "encoding_fn"; "decoding_fn"; "cmd";
                "positional"; "custom_args"] ->
        metadata_get k f = dict_find (VStr k) d).
Proof.
  intros default alias cmd positional to_dict enc dec default_factory init
    repr hash compare d custom f ws H.
  rewrite field_dict in H.
  destruct (field_default default custom) as [[default'|e] w];
    [| discriminate].
  simpl in H. injection H as <- _.
  unfold metadata_get. cbn [fld_metadata].
  repeat match goal with |- _ /\ _ => split end;
    try (rewrite field_metadata_find; cbn [String.eqb Ascii.eqb Bool.eqb andb];
         destruct custom, (truthy alias), (is_None enc), (is_None dec);
         reflexivity).
  intros k Hk. now apply field_metadata_other.
Qed.

(** A single alias and a caller's own entry. *)
Lemma field_metadata_contract_witness :
  exists f,
    field VMissing (VStr "x") (VBool true) (VBool false) (VBool true) VNone
      VNone VMissing (VBool true) (VBool true) VNone (VBool true)
      (VDict [(VStr "help", VStr "text")]) [] = (Ok f, []) /\
    metadata_get "alias" f = Some (VList [VStr "x"]) /\
    metadata_get "help" f = Some (VStr "text").
Proof.
  eexists. split; [reflexivity|].
  destruct (field_metadata_contract VMissing (VStr "x") (VBool true)
              (VBool false) (VBool true) VNone VNone VMissing (VBool true)
              (VBool true) VNone (VBool true) [(VStr "help", VStr "text")] []
              _ [] eq_refl)
    as (_ & _ & _ & Ha & _ & _ & _ & Hk).
  split; [exact Ha|]. apply Hk. simpl. intuition discriminate.
Defined.

(** X2.  [field] never hands both a default and a default factory to
    [dataclasses.field]: whatever its arguments, a field it returns has no
    default or no default factory; given a default, the field has a default
    and no default factory, the factory being dropped; and [field] never
    raises a [ValueError]. *)
Theorem field_default_beats_factory :
  forall default alias cmd positional to_dict encoding_fn decoding_fn
         default_factory init repr hash compare metadata custom,
    (forall f ws,
        field default alias cmd positional to_dict encoding_fn decoding_fn
          default_factory init repr hash compare metadata custom = (Ok f, ws) ->
        (fld_default f = VMissing \/ fld_default_factory f = VMissing) /\
        (is_MISSING default = false ->
         is_MISSING (fld_default f) = false /\
         fld_default_factory f = VMissing)) /\
    (forall e ws,
        field default alias cmd positional to_dict encoding_fn decoding_fn
          default_factory init repr hash compare metadata custom
        = (Raised e, ws) ->
        exn_type e <> ValueError).
Proof.
  intros default alias cmd positional to_dict enc dec default_factory init
    repr hash compare metadata custom.
  destruct (field_outcome default alias cmd positional to_dict enc dec
              default_factory init repr hash compare metadata custom)
    as [(c & msg & Hc & ->) | (default' & d & _ & Hd & _ & ->)].
  - split; [discriminate|]. intros e ws [= <- _]. exact Hc.
  - split; [| discriminate]. intros f ws [= <- _].
    cbn [fld_default fld_default_factory]. split.
    + destruct default'; cbn [is_MISSING]; auto.
    + intros Hm. destruct Hd as [-> | (b & ->)].
      * now rewrite Hm.
      * split; reflexivity.
Qed.

(** ** [field] with a [store_true] or [store_false] action *)

Lemma py_eq_missing_l x : py_eq VMissing x = is_MISSING x.
Proof. now destruct x. Qed.

Lemma field_default_store b default custom :
  kw_get "action" custom = Some (VStr (store_action b)) ->
  field_default default custom =
  if hashable default then
    if is_MISSING default || py_eq (VBool (negb b)) default
    then ret (VBool (negb b))
    else raise RuntimeError (store_message b)
  else raise TypeError "unhashable type".
Proof.
  intros Ha. unfold field_default, set_contains.
  destruct custom as [|c custom]; [discriminate|]. rewrite Ha.
  cbn [existsb]. rewrite !py_eq_missing_l, !orb_false_r.
  destruct b; cbn [negb store_action store_message];
    generalize (py_eq (VBool true) default) (py_eq (VBool false) default)
      (is_MISSING default) (hashable default);
    intros q1 q2 mi h; destruct h, mi, q1, q2; reflexivity.
Qed.

(** X3.  [field] called with the custom argument [action="store_true"]
    forces the default [False], and with [action="store_false"] the default
    [True]: a default that is absent or equal to the forced one gives a field
    with the forced default and no default factory (a factory given is
    dropped); any other default that can be hashed raises [RuntimeError];
    one that cannot be hashed raises [TypeError], from the membership test
    in a set. *)
Theorem field_store_action :
  forall b default alias cmd positional to_dict encoding_fn decoding_fn
         default_factory init repr hash compare d custom,
    kw_get "action" custom = Some (VStr (store_action b)) ->
    (hashable default = false ->
     field default alias cmd positional to_dict encoding_fn decoding_fn
       default_factory init repr hash compare (VDict d) custom =
     raise TypeError "unhashable type") /\
    (hashable default = true ->
     is_MISSING default || py_eq (VBool (negb b)) default = true ->
     exists f,
       field default alias cmd positional to_dict encoding_fn decoding_fn
         default_factory init repr hash compare (VDict d) custom = (Ok f, []) /\
       fld_default f = VBool (negb b) /\
       fld_default_factory f = VMissing) /\
    (hashable default = true ->
     is_MISSING default || py_eq (VBool (negb b)) default = false ->
     field default alias cmd positional to_dict encoding_fn decoding_fn
       default_factory init repr hash compare (VDict d) custom =
     raise RuntimeError (store_message b)).
Proof.
  intros b default alias cmd positional to_dict enc dec default_factory init
    repr hash compare d custom Ha.
  rewrite field_dict, (field_default_store b default custom Ha).
  split; [|split].
  - intros ->. reflexivity.
  - intros -> ->. rewrite bind_ret. eexists. split; [reflexivity|].
    split; reflexivity.
  - intros -> ->. reflexivity.
Qed.

(** A default factory next to [action="store_true"]: the field has the
    default [False] and no factory. *)
Lemma field_store_action_witness :
  exists f,
    field VMissing VNone (VBool true) (VBool false) (VBool true) VNone VNone
      list_type (VBool true) (VBool true) VNone (VBool true) (VDict [])
      [("action", VStr "store_true")] = (Ok f, []) /\
    fld_default f = VBool false /\ fld_default_factory f = VMissing.
Proof.
  destruct (field_store_action true VMissing VNone (VBool true) (VBool false)
              (VBool true) VNone VNone list_type (VBool true) (VBool true)
              VNone (VBool true) [] [("action", VStr "store_true")] eq_refl)
    as (_ & H & _).
  apply H; reflexivity.
Defined.

(** ** [field] called by keyword *)

Lemma field_kw_dict kw d :
  kw_metadata kw = Some d ->
  field_kw kw =
  (default' <-
     field_default (kw_arg "default" VMissing kw)
       (filter (fun nv => negb (is_field_param (fst nv))) kw) ;;
   ret (kw_field default' d kw)).
Proof.
  intros Hm. unfold field_kw, kw_field.
  unfold kw_metadata in Hm. unfold kw_arg at 13.
  destruct (kw_get "metadata" kw) as [[]|]; try discriminate;
    injection Hm as <-; [| rewrite field_none]; apply field_dict.
Qed.

Lemma plain_action_filter kw :
  plain_action (filter (fun nv => negb (is_field_param (fst nv))) kw) =
  plain_action kw.
Proof.
  unfold plain_action, kw_arg. now rewrite kw_get_custom by reflexivity.
Qed.

Lemma field_kw_plain kw d :
  kw_metadata kw = Some d -> plain_action kw = true ->
  field_kw kw = ret (kw_field (kw_arg "default" VMissing kw) d kw).
Proof.
  intros Hm Ha. rewrite (field_kw_dict kw d Hm), field_default_plain.
  - now rewrite bind_ret.
  - now rewrite plain_action_filter.
Qed.

Lemma dict_find_kwargs a kw :
  dict_find (VStr a) (dict_of_kwargs kw) = kw_get a kw.
Proof.
  induction kw as [|[n v] r IH]; simpl; [reflexivity|].
  destruct (String.eqb n a); auto.
Qed.

(** A keyword that is no parameter of [field] is found among the custom
    arguments of the field. *)
Lemma custom_arg_kw_field name v default d kw :
  is_field_param name = false -> kw_get name kw = Some v ->
  custom_arg name (kw_field default d kw) = Some v.
Proof.
  intros Hn Hv. unfold custom_arg, metadata_get, kw_field.
  cbn [fld_metadata]. rewrite field_metadata_find.
  cbn [String.eqb Ascii.eqb Bool.eqb andb].
  rewrite <- (kw_get_custom name kw Hn) in Hv.
  destruct (filter _ kw) as [|c r] eqn:E; [discriminate|].
  cbn [length Nat.eqb negb]. now rewrite dict_find_kwargs.
Qed.

Lemma py_is_False x : py_is x (VBool false) = true <-> x = VBool false.
Proof.
  destruct x; simpl; split; intros H; try discriminate.
  - destruct b; [discriminate | reflexivity].
  - now injection H as ->.
Qed.

(** ** [flag] *)

Lemma flag_eq default kw d :
  kw_get "default" kw = None -> kw_get "nargs" kw = None ->
  kw_get "action" kw = None -> kw_get "type" kw = None ->
  kw_metadata kw = Some d ->
  flag default kw =
  (default' <-
     (if hashable default then
        if is_MISSING default
           || py_eq (VBool (negb (py_is default (VBool false)))) default
        then ret (VBool (negb (py_is default (VBool false))))
        else raise RuntimeError (store_message (py_is default (VBool false)))
      else raise TypeError "unhashable type") ;;
   ret (kw_field default' d (flag_kwargs default kw))).
Proof.
  intros Hd Hn Ha Ht Hm. unfold flag, kw_mem. rewrite Hd, Hn, Ha, Ht.
  cbn [orb].
  replace (if py_is default (VBool false)
           then VStr "store_true" else VStr "store_false")
    with (VStr (store_action (py_is default (VBool false))))
    by (now destruct (py_is default (VBool false))).
  fold (flag_kwargs default kw).
  assert (Hm' : kw_metadata (flag_kwargs default kw) = Some d) by exact Hm.
  rewrite (field_kw_dict _ d Hm').
  rewrite (field_default_store (py_is default (VBool false))); reflexivity.
Qed.

(** X4.  [flag] accepts the default [False], for which it declares the
    action [store_true], and otherwise declares [store_false] and accepts
    only a default equal to [True] (or [MISSING]): the field then has the
    default [False], respectively [True], never a default factory, and the
    custom arguments [nargs="?"] and [type=str2bool].  Every other default,
    among them [None] and [0], raises [RuntimeError], or [TypeError] when it
    cannot be hashed.  (The keyword arguments hold none of [default],
    [nargs], [action], [type], and their [metadata] is absent or a dict.) *)
Theorem flag_default :
  forall default kw d,
    kw_get "default" kw = None -> kw_get "nargs" kw = None ->
    kw_get "action" kw = None -> kw_get "type" kw = None ->
    kw_metadata kw = Some d ->
    (default = VBool false ->
     exists f,
       flag default kw = (Ok f, []) /\
       fld_default f = VBool false /\ fld_default_factory f = VMissing /\
       custom_arg "action" f = Some (VStr "store_true") /\
       custom_arg "nargs" f = Some (VStr "?") /\
       custom_arg "type" f = Some str2bool) /\
    (default <> VBool false -> hashable default = true ->
     is_MISSING default || py_eq (VBool true) default = true ->
     exists f,
       flag default kw = (Ok f, []) /\
       fld_default f = VBool true /\ fld_default_factory f = VMissing /\
       custom_arg "action" f = Some (VStr "store_false") /\
       custom_arg "nargs" f = Some (VStr "?") /\
       custom_arg "type" f = Some str2bool) /\
    (default <> VBool false -> hashable default = true ->
     is_MISSING default || py_eq (VBool true) default = false ->
     flag default kw = raise RuntimeError (store_message false)) /\
    (hashable default = false ->
     flag default kw = raise TypeError "unhashable type").
Proof.
  intros default kw d Hd Hn Ha Ht Hm.
  rewrite (flag_eq default kw d Hd Hn Ha Ht Hm).
  assert (Hnot : default <> VBool false -> py_is default (VBool false) = false).
  { intros H. destruct (py_is default (VBool false)) eqn:E; [|reflexivity].
    apply py_is_False in E. contradiction. }
  split; [|split; [|split]].
  - intros ->. cbn [hashable is_MISSING py_is py_eq Bool.eqb negb orb].
    rewrite bind_ret. eexists. split; [reflexivity|].
    repeat (split; [reflexivity|]).
    repeat split; apply custom_arg_kw_field; reflexivity.
  - intros Hf Hh Hc. rewrite Hh, (Hnot Hf). cbn [negb]. rewrite Hc, bind_ret.
    eexists. split; [reflexivity|].
    repeat (split; [reflexivity|]).
    repeat split; apply custom_arg_kw_field; try reflexivity.
    unfold flag_kwargs. now rewrite (Hnot Hf).
  - intros Hf Hh Hc. rewrite Hh, (Hnot Hf). cbn [negb]. now rewrite Hc.
  - intros Hh. now rewrite Hh.
Qed.

(** [flag(False)] declares [store_true]; [flag(0)] raises, 0 being neither
    [False] itself nor equal to [True]. *)
Lemma flag_default_witness :
  (exists f,
      flag (VBool false) [] = (Ok f, []) /\
      fld_default f = VBool false /\
      custom_arg "action" f = Some (VStr "store_true")) /\
  flag (VInt 0) [] = raise RuntimeError (store_message false).
Proof.
  destruct (flag_default (VBool false) [] [] eq_refl eq_refl eq_refl eq_refl
              eq_refl) as (H & _).
  destruct (flag_default (VInt 0) [] [] eq_refl eq_refl eq_refl eq_refl
              eq_refl) as (_ & _ & H0 & _).
  split.
  - destruct (H eq_refl) as (f & Hf & Hdf & _ & Hact & _).
    exists f. auto.
  - apply H0; [discriminate | reflexivity | reflexivity].
Defined.

(** ** [subparsers] *)

(** X5.  [subparsers] stores the mapping of subcommands, whatever it holds,
    under [subparsers] in the metadata of the field and keeps the default it
    is given; a [metadata] keyword cannot be passed along with it, the call
    of [field] then has two. *)
Theorem subparsers_metadata :
  forall subcommands default kw,
    (kw_mem "metadata" kw = true ->
     subparsers subcommands default kw =
     raise TypeError "field() got multiple values for keyword argument") /\
    (kw_get "metadata" kw = None -> kw_get "default" kw = None ->
     plain_action kw = true ->
     exists f,
       subparsers subcommands default kw = (Ok f, []) /\
       metadata_get "subparsers" f = Some (VDict subcommands) /\
       fld_default f = default /\
       fld_default_factory f =
         (if is_MISSING default then kw_arg "default_factory" VMissing kw
          else VMissing)).
Proof.
  intros subcommands default kw. unfold subparsers. split.
  - intros ->. reflexivity.
  - intros Hm Hd Ha. unfold kw_mem. rewrite Hm, Hd. cbn [orb].
    rewrite (field_kw_plain _ [(VStr "subparsers", VDict subcommands)]);
      [| reflexivity | exact Ha].
    eexists. split; [reflexivity|]. split; [| split; reflexivity].
    unfold metadata_get, kw_field. cbn [fld_metadata].
    rewrite field_metadata_other by (simpl; intuition discriminate).
    reflexivity.
Qed.

(** ** [mutable_field] and the container fields *)

Lemma kw_get_filter (p : string -> bool) a kw :
  kw_get a (filter (fun nv => p (fst nv)) kw) =
  if p a then kw_get a kw else None.
Proof.
  induction kw as [|[n v] r IH]; simpl.
  - now destruct (p a).
  - destruct (String.eqb_spec n a) as [->|Hne].
    + destruct (p a) eqn:Ea; simpl.
      * now rewrite String.eqb_refl.
      * exact IH.
    + destruct (p n); simpl; [|exact IH].
      destruct (String.eqb_spec n a); [contradiction | exact IH].
Qed.

Lemma kw_get_remove a b kw :
  kw_get a (kw_remove b kw) = if String.eqb a b then None else kw_get a kw.
Proof.
  unfold kw_remove.
  rewrite (kw_get_filter (fun n => negb (String.eqb n b)) a kw).
  now destruct (String.eqb a b).
Qed.

Lemma kw_get_not_mutable a kw :
  is_mutable_field_param a = false ->
  kw_get a (filter (fun nv => negb (is_mutable_field_param (fst nv))) kw) =
  kw_get a kw.
Proof.
  intros Ha.
  rewrite (kw_get_filter (fun n => negb (is_mutable_field_param n)) a kw).
  now rewrite Ha.
Qed.

(** [field_kw] on a [metadata] keyword that is [None] or a dict. *)
Lemma field_kw_metadata_arg kw d :
  kw_arg "metadata" VNone kw = VDict d \/
  (kw_arg "metadata" VNone kw = VNone /\ d = []) ->
  plain_action kw = true ->
  field_kw kw = ret (kw_field (kw_arg "default" VMissing kw) d kw).
Proof.
  intros Hm Ha. unfold field_kw, kw_field.
  destruct Hm as [-> | [-> ->]]; [| rewrite field_none];
    rewrite field_dict, field_default_plain, bind_ret;
    try reflexivity; now rewrite plain_action_filter.
Qed.

Lemma mutable_kwargs_get a default_factory kw :
  is_mutable_field_param a = false -> a <> "default_factory" ->
  kw_get a (mutable_kwargs default_factory kw) = kw_get a kw.
Proof.
  intros Ha Hne. unfold mutable_kwargs. cbn [kw_get].
  assert (Hn : forall b, is_mutable_field_param b = true -> String.eqb b a = false).
  { intros b Hb. destruct (String.eqb_spec b a) as [->|]; congruence. }
  destruct (String.eqb_spec "default_factory" a) as [<-|_]; [congruence|].
  rewrite (Hn "init"), (Hn "repr"), (Hn "hash"), (Hn "compare"),
    (Hn "metadata") by reflexivity.
  rewrite kw_get_remove, kw_get_not_mutable by assumption.
  destruct (String.eqb_spec a "default_factory"); congruence.
Qed.

(** The call of [mutable_field], for keyword arguments without [_type] and
    without a [store_true] or [store_false] action, whose [metadata] is
    absent or a dict. *)
Lemma call_mutable_field_plain partial ty args kw d :
  kw_get "_type" kw = None -> plain_action kw = true ->
  kw_metadata kw = Some d ->
  call_mutable_field partial ty args kw =
  ret (kw_field (kw_arg "default" VMissing kw) d
         (mutable_kwargs (kw_arg "default_factory" (partial ty args) kw) kw)).
Proof.
  intros Ht Ha Hm. unfold call_mutable_field, kw_mem. rewrite Ht.
  unfold mutable_field.
  replace (kw_arg "default_factory" (partial ty args)
             (filter (fun nv => negb (is_mutable_field_param (fst nv))) kw))
    with (kw_arg "default_factory" (partial ty args) kw)
    by (unfold kw_arg; now rewrite kw_get_not_mutable).
  fold (mutable_kwargs (kw_arg "default_factory" (partial ty args) kw) kw).
  rewrite (field_kw_metadata_arg _ d).
  - unfold kw_arg at 1. now rewrite mutable_kwargs_get by (reflexivity || discriminate).
  - unfold kw_metadata in Hm. unfold mutable_kwargs, kw_arg.
    cbn [kw_get String.eqb Ascii.eqb Bool.eqb].
    destruct (kw_get "metadata" kw) as [[]|]; try discriminate;
      injection Hm as <-; auto.
  - unfold plain_action, kw_arg in *.
    now rewrite mutable_kwargs_get by (reflexivity || discriminate).
Qed.

(** X6.  [list_field] never gives its field a default: a [default] keyword
    is taken out of the keyword arguments; when it is a list, the default
    factory of the field is the function that copies that list, and the
    positional items and a [default_factory] keyword are both ignored; when
    it is anything else it is dropped, and the default factory is the
    [default_factory] keyword if there is one, else [functools.partial] of
    [list] and the tuple of the positional items.  (Keyword arguments
    without [_type] and without a [store_true] or [store_false] action,
    whose [metadata] is absent or a dict.) *)
Theorem list_field_factory :
  forall (partial : value -> list value -> value)
         (deepcopy_lambda : value -> value) default_items kw d,
    kw_get "_type" kw = None -> plain_action kw = true ->
    kw_metadata kw = Some d ->
    exists f,
      list_field partial deepcopy_lambda default_items kw = (Ok f, []) /\
      fld_default f = VMissing /\
      fld_default_factory f =
        match kw_arg "default" VNone kw with
        | VList l => deepcopy_lambda (VList l)
        | _ =>
            kw_arg "default_factory"
              (partial list_type [VTuple default_items]) kw
        end.
Proof.
  intros partial deepcopy_lambda default_items kw d Ht Ha Hm.
  unfold list_field.
  set (kw2 := match kw_arg "default" VNone kw with
              | VList _ =>
                  kw_set "default_factory"
                    (deepcopy_lambda (kw_arg "default" VNone kw))
                    (kw_remove "default" kw)
              | _ => kw_remove "default" kw
              end).
  assert (Hget : forall a, a <> "default_factory" ->
                           kw_get a kw2 =
                           if String.eqb a "default" then None else kw_get a kw).
  { intros a Hne. unfold kw2.
    destruct (kw_arg "default" VNone kw);
      rewrite ?kw_get_set_other by assumption; apply kw_get_remove. }
  assert (Hdf : kw_arg "default_factory"
                  (partial list_type [VTuple default_items]) kw2 =
                match kw_arg "default" VNone kw with
                | VList l => deepcopy_lambda (VList l)
                | _ =>
                    kw_arg "default_factory"
                      (partial list_type [VTuple default_items]) kw
                end).
  { unfold kw2, kw_arg at 1.
    destruct (kw_arg "default" VNone kw);
      rewrite ?kw_get_set_same, ?kw_get_remove; reflexivity. }
  rewrite (call_mutable_field_plain partial list_type _ kw2 d).
  - assert (Hd0 : kw_arg "default" VMissing kw2 = VMissing).
    { unfold kw_arg. now rewrite (Hget "default") by discriminate. }
    rewrite Hd0. eexists. split; [reflexivity|]. unfold kw_field.
    cbn [fld_default fld_default_factory is_MISSING].
    split; [reflexivity|]. exact Hdf.
  - rewrite Hget by discriminate. exact Ht.
  - unfold plain_action, kw_arg in *. now rewrite Hget by discriminate.
  - unfold kw_metadata in *. now rewrite Hget by discriminate.
Qed.

(** Positional items next to a list given as [default]: the factory is the
    copy of that list. *)
Lemma list_field_factory_witness :
  exists f,
    list_field (fun _ _ => VFunction "partial") (fun _ => VFunction "copy")
      [VInt 1] [("default", VList [VInt 2])] = (Ok f, []) /\
    fld_default f = VMissing /\
    fld_default_factory f = VFunction "copy".
Proof.
  apply (list_field_factory (fun _ _ => VFunction "partial")
           (fun _ => VFunction "copy") [VInt 1]
           [("default", VList [VInt 2])] []); reflexivity.
Defined.

(** X7.  [set_field] and [dict_field] pass a [default] keyword on to
    [field], where it beats the factory: the field then has that default and
    no default factory at all.  Without a [default] keyword the field has no
    default, and its factory is the [default_factory] keyword if there is
    one (the items are then ignored), else [functools.partial] of the
    container type and the items.  (Keyword arguments without [_type] and
    without a [store_true] or [store_false] action, whose [metadata] is
    absent or a dict.) *)
Theorem container_field_default :
  forall (partial : value -> list value -> value)
         (dict_items : dict -> value) kw d,
    kw_get "_type" kw = None -> plain_action kw = true ->
    kw_metadata kw = Some d ->
    (forall default_items,
        exists f,
          set_field partial default_items kw = (Ok f, []) /\
          fld_default f = kw_arg "default" VMissing kw /\
          fld_default_factory f =
            (if is_MISSING (kw_arg "default" VMissing kw)
             then kw_arg "default_factory"
                    (partial set_type [VTuple default_items]) kw
             else VMissing)) /\
    (forall default_items,
        exists f,
          dict_field partial dict_items default_items kw = (Ok f, []) /\
          fld_default f = kw_arg "default" VMissing kw /\
          fld_default_factory f =
            (if is_MISSING (kw_arg "default" VMissing kw)
             then kw_arg "default_factory"
                    (partial dict_type
                       [dict_field_items dict_items default_items]) kw
             else VMissing)).
Proof.
  intros partial dict_items kw d Ht Ha Hm. split; intros default_items.
  - unfold set_field. rewrite (call_mutable_field_plain _ _ _ _ d Ht Ha Hm).
    eexists. split; [reflexivity|]. split; reflexivity.
  - unfold dict_field. fold (dict_field_items dict_items default_items).
    rewrite (call_mutable_field_plain _ _ _ _ d Ht Ha Hm).
    eexists. split; [reflexivity|]. split; reflexivity.
Qed.

(** [set_field(1, 2, default=None)]: the default [None], no factory. *)
Lemma container_field_default_witness :
  exists f,
    set_field (fun _ _ => VFunction "partial") [VInt 1; VInt 2]
      [("default", VNone)] = (Ok f, []) /\
    fld_default f = VNone /\ fld_default_factory f = VMissing.
Proof.
  destruct (container_field_default (fun _ _ => VFunction "partial")
              (fun _ => VFunction "items") [("default", VNone)] []
              eq_refl eq_refl eq_refl) as [H _].
  exact (H [VInt 1; VInt 2]).
Defined.

(** ** The encoding and decoding functions of a mapping *)

Lemma encoding_fn_key m x v :
  hashable x = true -> dict_find x m = Some v -> _encoding_fn m x = ret x.
Proof.
  intros Hx Hf. unfold _encoding_fn, dict_contains.
  now rewrite Hx, Hf, bind_ret.
Qed.

Lemma encoding_fn_first m x pre k v post :
  hashable x = true -> dict_find x m = None ->
  m = pre ++ (k, v) :: post -> py_eq v x = true ->
  (forall kv, In kv pre -> py_eq (snd kv) x = false) ->
  _encoding_fn m x = ret k.
Proof.
  intros Hx Hf -> Hv Hpre. unfold _encoding_fn, dict_contains.
  rewrite Hx, Hf, bind_ret.
  assert (Hc : seq_contains x (dict_values (pre ++ (k, v) :: post)) = true).
  { unfold seq_contains. apply existsb_exists. exists v. split.
    - unfold dict_values. apply in_map_iff. exists (k, v). split; auto.
      apply in_or_app. right. now left.
    - rewrite Hv. apply orb_true_r. }
  rewrite Hc.
  now rewrite (filter_first (fun kv => py_eq (snd kv) x) pre (k, v) post Hv Hpre).
Qed.

Lemma encoding_fn_other m x :
  hashable x = true -> dict_find x m = None ->
  seq_contains x (dict_values m) = false ->
  _encoding_fn m x = ret x.
Proof.
  intros Hx Hf Hc. unfold _encoding_fn, dict_contains.
  now rewrite Hx, Hf, bind_ret, Hc.
Qed.

Lemma decoding_fn_find m x :
  hashable x = true ->
  _decoding_fn m x =
  ret (match dict_find x m with Some v => v | None => x end).
Proof. intros Hx. unfold _decoding_fn, dict_get. now rewrite Hx. Qed.

(** The first item whose value equals [x]. *)
Lemma first_value_split (m : dict) (x : value) :
  (exists kv, In kv m /\ py_eq (snd kv) x = true) ->
  exists pre k v post,
    m = pre ++ (k, v) :: post /\ py_eq v x = true /\
    forall kv, In kv pre -> py_eq (snd kv) x = false.
Proof.
  induction m as [|[k v] r IH]; intros (kv & Hin & Hkv); [destruct Hin|].
  destruct (py_eq v x) eqn:E.
  - exists [], k, v, r. repeat split; auto. intros ? [].
  - destruct IH as (pre & k' & v' & post & -> & Hv & Hpre).
    { destruct Hin as [<-|Hin]; [simpl in Hkv; congruence|]. eauto. }
    exists ((k, v) :: pre), k', v', post. repeat split; auto.
    intros kv' [<-|Hin']; auto.
Qed.

Lemma dict_wf_split pre k v post :
  dict_wf (pre ++ (k, v) :: post) ->
  hashable k = true /\ forall kv, In kv pre -> py_eq (fst kv) k = false.
Proof.
  induction pre as [|[k' v'] r IH]; simpl.
  - intros (Hk & _ & _). split; [assumption | intros ? []].
  - intros (_ & Hk' & Hwf). destruct (IH Hwf) as [Hk Hr]. split; [assumption|].
    intros kv [<-|Hin]; [| now apply Hr].
    simpl. apply (Hk' (k, v)). apply in_or_app. right. now left.
Qed.

Lemma values_distinct_split pre k v post :
  values_distinct (pre ++ (k, v) :: post) ->
  forall kv, In kv pre -> py_eq (snd kv) v = false.
Proof.
  induction pre as [|[k' v'] r IH]; simpl; [intros _ ? []|].
  intros (Hv' & Hd) kv [<-|Hin]; [| now apply IH].
  simpl. apply (Hv' (k, v)). apply in_or_app. right. now left.
Qed.

(** X8.  [choice] given a mapping returns a field whose canonical choices
    are the keys of the mapping in its order, whose metadata hold the
    mapping under [choice_dict], and whose default is the one given: the
    default is never compared with the keys.  (Ordinary keyword arguments
    whose [metadata] is absent or a dict.) *)
Theorem choice_mapping_field :
  forall m default kw d,
    ordinary kw -> kw_metadata kw = Some d ->
    exists f,
      choice [VDict m] default kw = (Ok f, []) /\
      canonical_choices f = Some (VList (dict_keys m)) /\
      metadata_get "choice_dict" f = Some (VDict m) /\
      fld_default f = default.
Proof.
  intros m default kw d Ho Hm. eexists.
  rewrite (choice_mapping_ordinary _ _ _ _ Ho Hm).
  split; [reflexivity|]. split; [apply canonical_choices_declared|].
  split; [| reflexivity].
  rewrite metadata_get_declared by (simpl; intuition discriminate).
  apply dict_find_set_same.
Qed.

(** A default that is no key of the mapping is accepted. *)
Lemma choice_mapping_field_witness :
  exists f,
    choice [VDict sizes] (VStr "huge") [] = (Ok f, []) /\
    canonical_choices f = Some (VList [VStr "small"; VStr "big"]) /\
    metadata_get "choice_dict" f = Some (VDict sizes) /\
    fld_default f = VStr "huge".
Proof.
  apply (choice_mapping_field sizes (VStr "huge") [] []);
    [repeat split | reflexivity].
Defined.

(** X9.  When the argument is not a key of a well-formed mapping and equals
    one of its values, decoding what [_encoding_fn] returns gives back a
    value equal to the argument: [_encoding_fn] returns a key of the
    mapping and [_decoding_fn] returns the value stored under it. *)
Theorem decode_after_encode :
  forall m x,
    dict_wf m -> hashable x = true ->
    (forall kv, In kv m -> py_eq (fst kv) x = false) ->
    (exists kv, In kv m /\ py_eq (snd kv) x = true) ->
    exists k v,
      _encoding_fn m x = ret k /\ _decoding_fn m k = ret v /\
      In (k, v) m /\ py_eq v x = true.
Proof.
  intros m x Hwf Hx Hkeys Hval.
  destruct (first_value_split m x Hval) as (pre & k & v & post & Hm & Hv & Hpre).
  exists k, v. apply dict_find_none in Hkeys. split.
  - exact (encoding_fn_first m x pre k v post Hx Hkeys Hm Hv Hpre).
  - subst m. destruct (dict_wf_split _ _ _ _ Hwf) as [Hk Hprek].
    rewrite (decoding_fn_find _ _ Hk).
    rewrite (dict_find_first k pre k v post (py_eq_refl k) Hprek).
    repeat split; auto. apply in_or_app. right. now left.
Qed.

Lemma sizes_wf : dict_wf sizes.
Proof.
  simpl. repeat split; try reflexivity; intros kv H;
    repeat (destruct H as [<-|H]; [reflexivity|]); destruct H.
Defined.

(** For the mapping of [small] to 1 and [big] to 100: 100 is encoded as
    [big], and [big] decoded as 100. *)
Lemma decode_after_encode_witness :
  exists k v,
    _encoding_fn sizes (VInt 100) = ret k /\ _decoding_fn sizes k = ret v /\
    In (k, v) sizes /\ py_eq v (VInt 100) = true.
Proof.
  apply (decode_after_encode sizes (VInt 100) sizes_wf eq_refl).
  - intros kv H. repeat (destruct H as [<-|H]; [reflexivity|]). destruct H.
  - exists (VStr "big", VInt 100). split; [simpl; auto | reflexivity].
Defined.

(** X10.  When a key of the mapping has a value that can be hashed, that
    equals itself (a NaN does not) and that is not itself a key, and no two
    values of the mapping are equal, encoding what [_decoding_fn] returns
    for the key gives back the key: the key object of the mapping, which is
    or equals the one given. *)
Theorem encode_after_decode :
  forall m x v,
    hashable x = true -> dict_find x m = Some v ->
    hashable v = true -> py_eq v v = true ->
    (forall kv, In kv m -> py_eq (fst kv) v = false) ->
    values_distinct m ->
    exists k,
      _decoding_fn m x = ret v /\ _encoding_fn m v = ret k /\
      In (k, v) m /\ py_is k x || py_eq k x = true.
Proof.
  intros m x v Hx Hf Hv Hvv Hkeys Hd.
  destruct (dict_find_some x v m Hf) as (pre & k & post & Hm & Hk & _).
  exists k. split; [| split; [| split]].
  - now rewrite (decoding_fn_find _ _ Hx), Hf.
  - apply dict_find_none in Hkeys.
    apply (encoding_fn_first m v pre k v post Hv Hkeys Hm Hvv).
    subst m. now apply (values_distinct_split pre k v post).
  - subst m. apply in_or_app. right. now left.
  - rewrite Hk. apply orb_true_r.
Qed.

Lemma sizes_values_distinct : values_distinct sizes.
Proof.
  simpl. repeat split; intros kv H;
    repeat (destruct H as [<-|H]; [reflexivity|]); destruct H.
Defined.

(** For the same mapping: [small] is decoded as 1, and 1 encoded as
    [small]. *)
Lemma encode_after_decode_witness :
  exists k,
    _decoding_fn sizes (VStr "small") = ret (VInt 1) /\
    _encoding_fn sizes (VInt 1) = ret k /\
    In (k, VInt 1) sizes /\ py_is k (VStr "small") || py_eq k (VStr "small") = true.
Proof.
  apply (encode_after_decode sizes (VStr "small") (VInt 1) eq_refl eq_refl
           eq_refl eq_refl).
  - intros kv H. repeat (destruct H as [<-|H]; [reflexivity|]). destruct H.
  - exact sizes_values_distinct.
Defined.

Lemma class_kind_eqb_eq k1 k2 : class_kind_eqb k1 k2 = true -> k1 = k2.
Proof.
  destruct k1, k2; simpl; try discriminate; try reflexivity.
  destruct (list_eq_dec string_dec members members0); [now subst | discriminate].
Qed.

(** Two descriptions of the same object are the same. *)
Lemma py_is_same (a b : value) : py_is a b = true -> a = b.
Proof.
  destruct a, b; simpl; try discriminate; try reflexivity.
  - intros H. apply Bool.eqb_prop in H. now subst.
  - intros H. apply andb_true_iff in H as [Hn Hk].
    apply String.eqb_eq in Hn. apply class_kind_eqb_eq in Hk. now subst.
  - intros H. apply andb_true_iff in H as [Hc Hn].
    apply String.eqb_eq in Hc, Hn. now subst.
  - intros H. apply String.eqb_eq in H. now subst.
Qed.

(** An argument found among the values, and that equals itself, equals one
    of the values: the one that it is, or the one that it equals. *)
Lemma seq_contains_equal (x : value) (m : dict) :
  py_eq x x = true -> seq_contains x (dict_values m) = true ->
  exists kv, In kv m /\ py_eq (snd kv) x = true.
Proof.
  intros Hxx Hc. unfold seq_contains in Hc.
  apply existsb_exists in Hc as (v & Hin & Hv).
  unfold dict_values in Hin. apply in_map_iff in Hin as (kv & <- & Hin).
  exists kv. split; [assumption|].
  apply orb_true_iff in Hv as [Hv|Hv]; [| exact Hv].
  apply py_is_same in Hv. now rewrite Hv.
Qed.

(** X11.  For a mapping whose keys can be hashed and an argument that can be
    hashed and equals itself, [_encoding_fn] returns (the index into the
    list of matching keys is not out of range), what it returns is the
    argument or a key of the mapping, and encoding that again changes
    nothing.  (A NaN does not equal itself: found among the values as the
    object it is, it equals none of them, and the list of matching keys is
    empty.) *)
Theorem encode_idempotent :
  forall m x,
    (forall kv, In kv m -> hashable (fst kv) = true) ->
    hashable x = true -> py_eq x x = true ->
    exists y,
      _encoding_fn m x = ret y /\ _encoding_fn m y = ret y /\
      (y = x \/ In y (dict_keys m)).
Proof.
  intros m x Hkeys Hx Hxx.
  destruct (dict_find x m) as [v|] eqn:Hf.
  - exists x. rewrite (encoding_fn_key m x v Hx Hf). auto.
  - destruct (seq_contains x (dict_values m)) eqn:Hc.
    + destruct (first_value_split m x (seq_contains_equal x m Hxx Hc))
        as (pre & k & v & post & Hm & Hv & Hpre).
      assert (Hin : In (k, v) m).
      { subst m. apply in_or_app. right. now left. }
      exists k. rewrite (encoding_fn_first m x pre k v post Hx Hf Hm Hv Hpre).
      split; [reflexivity|]. split.
      * destruct (dict_find k m) as [w|] eqn:Hk.
        -- apply (encoding_fn_key m k w (Hkeys _ Hin) Hk).
        -- rewrite dict_find_none in Hk. specialize (Hk _ Hin). simpl in Hk.
           rewrite py_eq_refl in Hk. discriminate.
      * right. unfold dict_keys. now apply (in_map fst) in Hin.
    + exists x. rewrite (encoding_fn_other m x Hx Hf Hc). auto.
Qed.

(** For the mapping of [small] to 1 and [big] to 100, at the value 100. *)
Lemma encode_idempotent_witness :
  exists y,
    _encoding_fn sizes (VInt 100) = ret y /\ _encoding_fn sizes y = ret y /\
    (y = VInt 100 \/ In y (dict_keys sizes)).
Proof.
  apply (encode_idempotent sizes (VInt 100)); [| reflexivity | reflexivity].
  intros kv H. repeat (destruct H as [<-|H]; [reflexivity|]). destruct H.
Defined.

Lemma dict_find_none_keys (x : value) (m : dict) :
  dict_find x m = None <-> seq_contains x (dict_keys m) = false.
Proof.
  rewrite dict_find_none, seq_contains_false. unfold dict_keys. split.
  - intros H v Hin. apply in_map_iff in Hin as (kv & <- & Hin). now apply H.
  - intros H kv Hin. apply H. now apply in_map.
Qed.

(** X16.  What the two functions of a mapping return for an argument that
    can be hashed.  [_encoding_fn]: the argument, when it is found among the
    keys; else, when a value of the mapping equals it, the first key in the
    order of the mapping whose value equals it; else, when it is not found
    among the values, the argument.  [_decoding_fn]: the value stored under
    the first key that the argument is or equals, and the argument itself
    when it is not found among the keys.  For the mapping of [small] to 1
    and [big] to 100: [small] is decoded as 1, [unknown] as itself, 1 is
    encoded as [small] and 42 as itself. *)
Theorem encode_decode_hashable :
  forall (m : dict) (x : value),
    hashable x = true ->
    (seq_contains x (dict_keys m) = true -> _encoding_fn m x = ret x) /\
    (forall pre k v post,
        seq_contains x (dict_keys m) = false ->
        m = pre ++ (k, v) :: post ->
        py_eq v x = true ->
        (forall kv, In kv pre -> py_eq (snd kv) x = false) ->
        _encoding_fn m x = ret k) /\
    (seq_contains x (dict_keys m) = false ->
     seq_contains x (dict_values m) = false ->
     _encoding_fn m x = ret x) /\
    (forall pre k v post,
        m = pre ++ (k, v) :: post ->
        py_is k x || py_eq k x = true ->
        seq_contains x (dict_keys pre) = false ->
        _decoding_fn m x = ret v) /\
    (seq_contains x (dict_keys m) = false -> _decoding_fn m x = ret x) /\
    _decoding_fn sizes (VStr "small") = ret (VInt 1) /\
    _decoding_fn sizes (VStr "unknown") = ret (VStr "unknown") /\
    _encoding_fn sizes (VInt 1) = ret (VStr "small") /\
    _encoding_fn sizes (VInt 42) = ret (VInt 42).
Proof.
  intros m x Hx.
  split; [| split; [| split; [| split; [| split; [| repeat split]]]]].
  - intros Hk. destruct (dict_find x m) as [v|] eqn:Hf.
    + exact (encoding_fn_key m x v Hx Hf).
    + apply dict_find_none_keys in Hf. congruence.
  - intros pre k v post Hk Hm Hv Hpre. apply dict_find_none_keys in Hk.
    exact (encoding_fn_first m x pre k v post Hx Hk Hm Hv Hpre).
  - intros Hk Hc. apply dict_find_none_keys in Hk.
    exact (encoding_fn_other m x Hx Hk Hc).
  - intros pre k v post -> Hk Hpre. rewrite (decoding_fn_find _ _ Hx).
    assert (Hkx : py_eq k x = true).
    { apply orb_true_iff in Hk as [Hk|Hk]; [now apply py_is_py_eq | exact Hk]. }
    apply dict_find_none_keys in Hpre. rewrite dict_find_none in Hpre.
    now rewrite (dict_find_first x pre k v post Hkx Hpre).
  - intros Hk. apply dict_find_none_keys in Hk.
    now rewrite (decoding_fn_find _ _ Hx), Hk.
Qed.

(** The mapping of [small] to 1 and [big] to 100, at 1: not a key, and the
    value stored under [small]. *)
Lemma encode_decode_hashable_witness :
  hashable (VInt 1) = true /\ _encoding_fn sizes (VInt 1) = ret (VStr "small").
Proof.
  split; [reflexivity|].
  destruct (encode_decode_hashable sizes (VInt 1) eq_refl) as (_ & H & _).
  apply (H [] (VStr "small") (VInt 1) [(VStr "big", VInt 100)]).
  - reflexivity.
  - reflexivity.
  - reflexivity.
  - intros kv [].
Defined.

(** ** Enum classes: names and members *)

Lemma enum_encode_member cls members n :
  NoDup members -> In n members ->
  (forall e, In e members -> py_eq (VStr e) (VEnumMember cls n) = false) ->
  py_eq (VEnumMember cls n) (VEnumMember cls n) = true ->
  _encoding_fn (enum_dict cls members) (VEnumMember cls n) = ret (VStr n).
Proof.
  intros Hnd Hn Hnames Hself.
  assert (Hkey : dict_find (VEnumMember cls n) (enum_dict cls members) = None).
  { apply dict_find_none. intros kv Hin. unfold enum_dict in Hin.
    apply in_map_iff in Hin as (e & <- & He). now apply Hnames. }
  apply in_split in Hn as (l1 & l2 & ->).
  apply NoDup_remove_2 in Hnd.
  apply (encoding_fn_first _ _ (enum_dict cls l1) (VStr n) (VEnumMember cls n)
           (enum_dict cls l2)).
  - reflexivity.
  - exact Hkey.
  - unfold enum_dict. now rewrite map_app.
  - exact Hself.
  - intros kv Hin. unfold enum_dict in Hin.
    apply in_map_iff in Hin as (e & <- & He). simpl.
    rewrite String.eqb_refl. simpl. apply String.eqb_neq. intros ->.
    apply Hnd. apply in_or_app. now left.
Qed.

(** X12.  For an enum class given to [choice] (default absent or a member,
    no encoding or decoding function of the caller's), the metadata of the
    field hold, under [choice_dict], the mapping from each member name to
    its member, and the two closures over that mapping.  The decoding
    function takes the name of a member to the member.  When the members
    equal themselves and none of the names, as those of an enum without a
    mixed-in data type do, the encoding function takes a member to its name.
    (A member of [class Mode(str, Enum)] whose value is one of the names is
    found among the keys, and encoded as itself.) *)
Theorem choice_enum_names_and_members :
  forall cls members default kw d,
    NoDup members ->
    ordinary kw -> kw_metadata kw = Some d ->
    kw_get "encoding_fn" kw = None -> kw_get "decoding_fn" kw = None ->
    is_MISSING default = true \/ isinstance_enum default cls = true ->
    exists f,
      choice [VClass cls (EnumClass members)] default kw = (Ok f, []) /\
      metadata_get "choice_dict" f = Some (VDict (enum_dict cls members)) /\
      metadata_get "encoding_fn" f = Some (VEncodingFn (enum_dict cls members))
      /\
      metadata_get "decoding_fn" f = Some (VDecodingFn (enum_dict cls members))
      /\
      (forall n,
          In n members ->
          _decoding_fn (enum_dict cls members) (VStr n) =
          ret (VEnumMember cls n)) /\
      ((forall e n,
           In e members -> In n members ->
           py_eq (VStr e) (VEnumMember cls n) = false) ->
       (forall n,
           In n members ->
           py_eq (VEnumMember cls n) (VEnumMember cls n) = true) ->
       forall n,
         In n members ->
         _encoding_fn (enum_dict cls members) (VEnumMember cls n) =
         ret (VStr n)).
Proof.
  intros cls members default kw d Hnd Ho Hm He Hd Hdef.
  rewrite (choice_enum_keep _ _ _ _ Hnd Hdef).
  rewrite (choice_mapping_ordinary _ _ _ _ Ho Hm).
  eexists. split; [reflexivity|]. split; [| split; [| split; [| split]]].
  - rewrite metadata_get_declared by (simpl; intuition discriminate).
    apply dict_find_set_same.
  - rewrite metadata_get_declared_encoding_fn;
      rewrite mapping_kwargs_encoding_fn; unfold kw_arg; now rewrite He.
  - rewrite metadata_get_declared_decoding_fn;
      rewrite mapping_kwargs_decoding_fn; unfold kw_arg; now rewrite Hd.
  - intros n Hn. rewrite decoding_fn_find by reflexivity.
    now rewrite (enum_dict_find_name _ _ _ Hn).
  - intros Hnames Hself n Hn. apply enum_encode_member; auto.
Qed.

(** The enum of the spec: the name [B] and the member [B]. *)
Lemma choice_enum_names_and_members_witness :
  _decoding_fn (enum_dict "Color" ["A"; "B"; "C"]) (VStr "B") =
  ret (VEnumMember "Color" "B") /\
  _encoding_fn (enum_dict "Color" ["A"; "B"; "C"]) (VEnumMember "Color" "B") =
  ret (VStr "B").
Proof.
  destruct (choice_enum_names_and_members "Color" ["A"; "B"; "C"] VMissing
              [] [] NoDup_ABC ordinary_nil eq_refl eq_refl eq_refl
              (or_introl eq_refl)) as (f & _ & _ & _ & _ & Hdec & Henc).
  split.
  - apply Hdec. simpl. auto.
  - apply Henc.
    + intros e n _ _. reflexivity.
    + intros n Hn. simpl in Hn.
      repeat (destruct Hn as [<-|Hn]; [reflexivity|]). destruct Hn.
    + simpl. auto.
Defined.

(** ** [subgroups]: what it refuses and what it stores *)

(** X13.  [subgroups] refuses a mapping with a value that is no dataclass
    type before it looks at anything else, whatever the defaults and the
    keyword arguments; and for a mapping of dataclass types it refuses a
    default that is no key of the mapping, with a [ValueError], or with the
    [TypeError] of the lookup when the default cannot be hashed. *)
Theorem subgroups_refused :
  (forall m args default default_factory kw,
      forallb is_dataclass_type (dict_values m) = false ->
      subgroups m args default default_factory kw =
      raise ValueError
        "All values in the subgroups dict need to be dataclasses!") /\
  (forall m args default kw d,
      forallb is_dataclass_type (dict_values m) = true ->
      kw_metadata kw = Some d ->
      is_MISSING default = false ->
      (forall kv, In kv m -> py_eq (fst kv) default = false) ->
      subgroups m args default VMissing kw =
      (Raised
         (if hashable default
          then Exn ValueError "default must be a key in the subgroups dict!"
          else Exn TypeError "unhashable type"),
       [])).
Proof.
  split.
  - intros m args default default_factory kw H. unfold subgroups.
    now rewrite H.
  - intros m args default kw d Hdc Hm Hd Hkeys.
    rewrite (subgroups_eq _ _ _ _ _ _ Hdc Hm). unfold subgroup_selection.
    rewrite Hd. cbn [is_MISSING negb andb].
    apply dict_find_none in Hkeys. rewrite Hkeys.
    now destruct (hashable default).
Qed.

Lemma custom_arg_declared name default choices d kw :
  is_field_param name = false -> name <> "choices" ->
  custom_arg name (declared_field default choices d kw) = kw_get name kw.
Proof.
  intros Hn Hne. unfold custom_arg, metadata_get, declared_field.
  cbn [fld_metadata]. rewrite field_metadata_custom_args.
  rewrite dict_find_kwargs. cbn [kw_get].
  destruct (String.eqb_spec "choices" name); [congruence|].
  now apply kw_get_custom.
Qed.

(** X14.  Every field that [subgroups] returns holds the mapping under
    [subgroups] in its metadata, has the view of the mapping's keys as its
    choices (in a tuple with the extra positional arguments, when there are
    some), and has [str] as its [type] custom argument, whatever [type] the
    caller passed.  When neither a default nor a default factory is given,
    the stored [subgroup_default] is [MISSING], and without a [store_true]
    or [store_false] action the field has neither a default nor a
    factory. *)
Theorem subgroups_stores_mapping :
  forall m args default default_factory kw f ws,
    subgroups m args default default_factory kw = (Ok f, ws) ->
    metadata_get "subgroups" f = Some (VDict m) /\
    canonical_choices f = Some (subgroup_choices m args) /\
    custom_arg "type" f = Some (VClass "str" PlainClass) /\
    (is_MISSING default = true -> is_MISSING default_factory = true ->
     metadata_get "subgroup_default" f = Some VMissing /\
     (plain_action kw = true ->
      fld_default f = VMissing /\ fld_default_factory f = VMissing)).
Proof.
  intros m args default default_factory kw f ws H.
  destruct (forallb is_dataclass_type (dict_values m)) eqn:Hdc;
    [| rewrite (subgroups_not_dataclasses _ _ _ _ _ Hdc) in H; discriminate].
  destruct (kw_metadata kw) as [d|] eqn:Hm;
    [| rewrite (subgroups_bad_metadata _ _ _ _ _ Hdc Hm) in H; discriminate].
  pose proof (subgroups_eq m args default default_factory kw d Hdc Hm) as Heq.
  pose proof (subgroup_selection_no_warning m default default_factory) as Hws.
  destruct (subgroup_selection m default default_factory)
    as [[[key factory]|e] ws0] eqn:Hsel;
    [| rewrite Heq in H; discriminate].
  simpl in Hws. subst ws0.
  change (Ok (key, factory), []) with (ret (key, factory)) in Heq.
  rewrite bind_ret in Heq. rewrite Heq in H.
  rewrite choice_keys_view in H.
  rewrite (call_field_dict _ _ _ _
             (subgroup_kwargs_metadata m d default key factory kw)) in H.
  destruct (kw_mem "default" _ || kw_mem "choices" _); [discriminate|].
  pose proof (field_default_plain VMissing
                (("choices", subgroup_choices m args)
                   :: filter (fun nv => negb (is_field_param (fst nv)))
                        (("default_factory", factory)
                           :: subgroup_kwargs m d default key kw))) as Hplain.
  rewrite plain_action_custom in Hplain.
  assert (Hact : plain_action
                   (("default_factory", factory)
                      :: subgroup_kwargs m d default key kw) =
                 plain_action kw).
  { unfold plain_action, kw_arg.
    now rewrite !subgroup_kwargs_get by discriminate. }
  rewrite Hact in Hplain.
  destruct (field_default VMissing _) as [[default'|e] ws1] eqn:Hfd;
    [| discriminate].
  simpl in H. injection H as <- _.
  split; [| split; [| split]].
  - rewrite metadata_get_declared by (simpl; intuition discriminate).
    unfold subgroup_metadata.
    rewrite !dict_find_set_other by discriminate. apply dict_find_set_same.
  - apply canonical_choices_declared.
  - rewrite custom_arg_declared by (reflexivity || discriminate).
    unfold subgroup_kwargs. cbn [kw_get String.eqb Ascii.eqb Bool.eqb].
    rewrite kw_get_set_other by discriminate. apply kw_get_set_same.
  - intros Hd Hf. apply subgroup_selection_inv in Hsel.
    destruct Hsel as [(Hd' & _) | [(_ & Hf' & _) | (_ & -> & ->)]];
      try congruence.
    split; [apply subgroup_default_declared|].
    intros Hp. specialize (Hplain Hp). injection Hplain as ->.
    split; reflexivity.
Qed.

(** A [type] keyword of the caller's is replaced by [str]. *)
Lemma subgroups_stores_mapping_witness :
  exists f,
    subgroups [(VStr "a", TypeA); (VStr "b", TypeB)] [] VMissing VMissing
      [("type", VClass "int" PlainClass)] = (Ok f, []) /\
    custom_arg "type" f = Some (VClass "str" PlainClass) /\
    metadata_get "subgroup_default" f = Some VMissing.
Proof.
  eexists. split; [reflexivity|].
  destruct (subgroups_stores_mapping
              [(VStr "a", TypeA); (VStr "b", TypeB)] [] VMissing VMissing
              [("type", VClass "int" PlainClass)] _ [] eq_refl)
    as (_ & _ & Ht & Hn).
  split; [exact Ht|]. now destruct (Hn eq_refl eq_refl).
Defined.

(** ** Plain choices *)

Lemma call_field_entries default choices kw d :
  ordinary kw -> kw_metadata kw = Some d ->
  exists f,
    call_field default choices kw = (Ok f, []) /\
    canonical_choices f = Some choices /\
    fld_default f = default /\
    metadata_get "choice_dict" f = dict_find (VStr "choice_dict") d /\
    (kw_get "encoding_fn" kw = None ->
     metadata_get "encoding_fn" f = dict_find (VStr "encoding_fn") d) /\
    (kw_get "decoding_fn" kw = None ->
     metadata_get "decoding_fn" f = dict_find (VStr "decoding_fn") d).
Proof.
  intros Ho Hm. rewrite (call_field_ordinary _ _ _ _ Ho Hm).
  eexists. split; [reflexivity|].
  split; [apply canonical_choices_declared|]. split; [reflexivity|].
  split; [| split].
  - apply metadata_get_declared. simpl. intuition discriminate.
  - intros He. unfold metadata_get, declared_field. cbn [fld_metadata].
    apply field_metadata_encoding_fn_none. unfold kw_arg. now rewrite He.
  - intros He. unfold metadata_get, declared_field. cbn [fld_metadata].
    apply field_metadata_decoding_fn_none. unfold kw_arg. now rewrite He.
Qed.

(** X15.  For two or more positional choices, and for a single one that is
    neither an enum class nor a dict, [choice] returns a field whose choices
    are the tuple of the positional choices in their order, respectively
    that single object, and whose default is the one given; it stores no
    [choice_dict] and no encoding or decoding function of its own: these
    entries of the metadata are the caller's.  (Ordinary keyword arguments
    whose [metadata] is absent or a dict.) *)
Theorem choice_plain_field :
  forall default kw d,
    ordinary kw -> kw_metadata kw = Some d ->
    (forall c1 c2 rest,
        exists f,
          choice (c1 :: c2 :: rest) default kw = (Ok f, []) /\
          canonical_choices f = Some (VTuple (c1 :: c2 :: rest)) /\
          fld_default f = default /\
          metadata_get "choice_dict" f = dict_find (VStr "choice_dict") d /\
          (kw_get "encoding_fn" kw = None ->
           metadata_get "encoding_fn" f = dict_find (VStr "encoding_fn") d) /\
          (kw_get "decoding_fn" kw = None ->
           metadata_get "decoding_fn" f = dict_find (VStr "decoding_fn") d)) /\
    (forall c,
        is_enum_class c = false -> (forall m, c <> VDict m) ->
        exists f,
          choice [c] default kw = (Ok f, []) /\
          canonical_choices f = Some c /\
          fld_default f = default /\
          metadata_get "choice_dict" f = dict_find (VStr "choice_dict") d /\
          (kw_get "encoding_fn" kw = None ->
           metadata_get "encoding_fn" f = dict_find (VStr "encoding_fn") d) /\
          (kw_get "decoding_fn" kw = None ->
           metadata_get "decoding_fn" f = dict_find (VStr "decoding_fn") d)).
Proof.
  intros default kw d Ho Hm. split.
  - intros c1 c2 rest. rewrite choice_many.
    now apply call_field_entries.
  - intros c He Hd. rewrite (choice_single_plain _ _ _ He Hd).
    now apply call_field_entries.
Qed.

(** Three plain choices and a default among them. *)
Lemma choice_plain_field_witness :
  exists f,
    choice [VStr "a"; VStr "b"; VStr "c"] (VStr "b") [] = (Ok f, []) /\
    canonical_choices f = Some (VTuple [VStr "a"; VStr "b"; VStr "c"]) /\
    fld_default f = VStr "b" /\
    metadata_get "encoding_fn" f = None.
Proof.
  destruct (choice_plain_field (VStr "b") [] [] ordinary_nil eq_refl)
    as [H _].
  destruct (H (VStr "a") (VStr "b") [VStr "c"])
    as (f & Hf & Hc & Hd & _ & He & _).
  exists f. split; [exact Hf|]. split; [exact Hc|]. split; [exact Hd|].
  now apply He.
Defined.
